(** * Sliding-window inference and mean-teacher training: a shallow embedding

    This development models the two scripts of the repository:

    - [src/predict.py]: [test_single_case], the patch tiling of a padded
      volume, the accumulation of class scores and visit counts, the
      normalisation, the arg-max and the final crop; [getFiles],
      [extract_categories], the loop of [test_all_case] over the files of a
      directory and the call that [test_calculate_metric] makes (module
      [Predict]);
    - [src/train_semi_3Dmt_dist.py]: [sigmoid_rampup], and the parts of [main]
      that restore a checkpoint, run one training iteration (masked
      unsupervised loss, combined loss, learning-rate decay, teacher EMA),
      end an epoch (evaluation schedule, best-model bookkeeping) and save
      the checkpoints; the attributes of the parsed command line and the
      start of [main] up to the epoch loop (module [Train]).

    The definitions come first; the modules [PredictFacts] and [TrainFacts]
    hold what is proved about them.

    Conventions.  Python integers are [Z]; [//] is [Z.div] (both round towards
    minus infinity).  Python and torch floats are modelled by real numbers
    extended with the IEEE special values (type [pyfloat]): rounding is not
    modelled, division by zero is.  An n-dimensional array is its shape
    together with its indexing function.  Code that can raise returns a
    [result]. *)

From Stdlib Require Import ZArith List Lia Bool Reals Lra.
From stdpp Require Import gmap strings list sorting.

Local Open Scope Z_scope.

(** ** Exceptions and results *)

Inductive pyexn : Type :=
| ZeroDivisionError
| ValueError
| TypeError
| IndexError
| KeyError (key : string)
| NameError (name : string)
| AttributeError (name : string)
| RuntimeError
| ComplexPower.

Inductive result (A : Type) : Type :=
| Ok (a : A)
| Raise (e : pyexn).

Arguments Ok {A} a.
Arguments Raise {A} e.

#[global] Instance result_ret : MRet result := fun A a => Ok a.
#[global] Instance result_bind : MBind result := fun A B f r =>
  match r with
  | Ok a => f a
  | Raise e => Raise e
  end.

(** ** Floating-point scalars

    A finite value is a real number; the three other constructors are the
    IEEE infinities and not-a-number. *)

Inductive pyfloat : Type :=
| Fin (r : R)
| PosInf
| NegInf
| NaN.

Definition Rltb (x y : R) : bool := if Rlt_dec x y then true else false.
Definition Rleb (x y : R) : bool := if Rle_dec x y then true else false.
Definition Reqb (x y : R) : bool := if Req_dec_T x y then true else false.

(** [x + y] on floats. *)
Definition fadd (x y : pyfloat) : pyfloat :=
  match x, y with
  | NaN, _ | _, NaN => NaN
  | Fin a, Fin b => Fin (a + b)
  | PosInf, NegInf | NegInf, PosInf => NaN
  | PosInf, _ | _, PosInf => PosInf
  | NegInf, _ | _, NegInf => NegInf
  end.

(** [x / c] where the divisor [c] is a finite float (a Python number
    converted to a float; a Python [0] becomes [+0.0]).  Neither numpy nor
    torch raises on a zero divisor: [0/0] is NaN and [x/0] is an infinity. *)
Definition fdiv (x : pyfloat) (c : R) : pyfloat :=
  match x with
  | NaN => NaN
  | Fin a =>
      if Reqb c 0
      then (if Reqb a 0 then NaN else if Rltb 0 a then PosInf else NegInf)
      else Fin (a / c)
  | PosInf => if Rltb c 0 then NegInf else PosInf
  | NegInf => if Rltb c 0 then PosInf else NegInf
  end.

(** The comparison [np.argmax] uses to replace its current best entry: a NaN
    beats everything that is not a NaN, otherwise the larger value wins. *)
Definition fbetter (x best : pyfloat) : bool :=
  match x, best with
  | _, NaN => false
  | NaN, _ => true
  | Fin a, Fin b => Rltb b a
  | PosInf, PosInf => false
  | PosInf, _ => true
  | Fin _, NegInf => true
  | _, _ => false
  end.

(** [range(lo, hi)]. *)
Definition py_range (lo hi : Z) : list Z := seqZ lo (hi - lo).

(** ** [src/predict.py] *)

Module Predict.

(** *** Arrays *)

Record ndarray3 (A : Type) : Type := Array3 {
  shape3 : Z * Z * Z;
  at3 : Z -> Z -> Z -> A
}.
Arguments Array3 {A} _ _.
Arguments shape3 {A} _.
Arguments at3 {A} _ _ _ _.

Record ndarray4 (A : Type) : Type := Array4 {
  shape4 : Z * Z * Z * Z;
  at4 : Z -> Z -> Z -> Z -> A
}.
Arguments Array4 {A} _ _.
Arguments shape4 {A} _.
Arguments at4 {A} _ _ _ _ _.

(** An index of an axis of extent [n]. *)
Definition in_axis (n i : Z) : Prop := 0 <= i < n.

Definition in_shape3 (s : Z * Z * Z) (i j k : Z) : Prop :=
  in_axis s.1.1 i /\ in_axis s.1.2 j /\ in_axis s.2 k.

(** A shape: no extent is negative. *)
Definition valid_shape (s : Z * Z * Z) : Prop :=
  0 <= s.1.1 /\ 0 <= s.1.2 /\ 0 <= s.2.

(** [lo <= i < hi]: membership of index [i] in the slice [lo:hi], for the
    non-negative bounds the program uses. *)
Definition in_slice (lo hi i : Z) : bool := (lo <=? i) && (i <? hi).

(** Extent of [a[lo:hi]] along an axis of extent [n] (non-negative bounds). *)
Definition slice_len (n lo hi : Z) : Z := Z.max 0 (Z.min hi n - Z.min lo n).

Definition in_box (xs ys zs : Z) (p : Z * Z * Z) (i j k : Z) : bool :=
  in_slice xs (xs + p.1.1) i && in_slice ys (ys + p.1.2) j
  && in_slice zs (zs + p.2) k.

(** [a[x0:x1, y0:y1, z0:z1]]. *)
Definition slice3 {A} (a : ndarray3 A) (x0 x1 y0 y1 z0 z1 : Z) : ndarray3 A :=
  let '(n0, n1, n2) := shape3 a in
  Array3 (slice_len n0 x0 x1, slice_len n1 y0 y1, slice_len n2 z0 z1)
         (fun i j k => at3 a (x0 + i) (y0 + j) (z0 + k)).

(** [a[:, x0:x1, y0:y1, z0:z1]]. *)
Definition slice4 {A} (a : ndarray4 A) (x0 x1 y0 y1 z0 z1 : Z) : ndarray4 A :=
  let '(c, n0, n1, n2) := shape4 a in
  Array4 (c, slice_len n0 x0 x1, slice_len n1 y0 y1, slice_len n2 z0 z1)
         (fun c i j k => at4 a c (x0 + i) (y0 + j) (z0 + k)).

(** [np.pad(a, [(xl, xr), (yl, yr), (zl, zr)], mode='constant',
    constant_values=fill)]. *)
Definition np_pad {A} (fill : A) (a : ndarray3 A)
    (xl xr yl yr zl zr : Z) : ndarray3 A :=
  let '(n0, n1, n2) := shape3 a in
  Array3 (xl + n0 + xr, yl + n1 + yr, zl + n2 + zr)
         (fun i j k =>
            if in_slice xl (xl + n0) i && in_slice yl (yl + n1) j
               && in_slice zl (zl + n2) k
            then at3 a (i - xl) (j - yl) (k - zl)
            else fill).

(** [math.ceil(a / b)] for Python integers: the true quotient, rounded up.
    (The float quotient of the source is exact for the extents of a volume.) *)
Definition ceil_div (a b : Z) : result Z :=
  if b =? 0 then Raise ZeroDivisionError else Ok (- ((- a) / b)).

(** The padding the source computes for one axis (lines 76-90). *)
Definition pad_of (n p : Z) : Z := if n <? p then p - n else 0.

(** [q] is the ceiling of the quotient [a / b], for a positive [b]. *)
Definition is_ceil (q a b : Z) : Prop := b * (q - 1) < a <= b * q.

(** Lines 99-101: the number of offsets along one axis. *)
Definition axis_count (extent patch stride : Z) : result Z :=
  q ← ceil_div (extent - patch) stride; Ok (q + 1).

(** Lines 107, 109 and 111: the offset of step [x] along one axis. *)
Definition axis_start (extent patch stride x : Z) : Z :=
  Z.min (stride * x) (extent - patch).

(** The offsets one loop visits along its axis, in loop order. *)
Definition axis_starts (extent patch stride : Z) : result (list Z) :=
  n ← axis_count extent patch stride;
  Ok (map (axis_start extent patch stride) (py_range 0 n)).

(** What lines 99-111 promise for one axis: [xs] are the offsets the loop
    visits, there are [ceil((extent - patch) / stride) + 1] of them, and the
    last one puts the patch against the far boundary. *)
Definition axis_tiled (extent patch stride : Z) (xs : list Z) : Prop :=
  exists q, is_ceil q (extent - patch) stride /\
            axis_starts extent patch stride = Ok xs /\
            Z.of_nat (length xs) = q + 1 /\
            last xs = Some (extent - patch).

(** The offset triples at which the body of the innermost loop runs, in the
    order of the three nested loops, given the offsets of each axis. *)
Definition offset_triples (xs ys zs : list Z) : list (Z * Z * Z) :=
  flat_map (fun x => flat_map (fun y => map (fun z => (x, y, z)) zs) ys) xs.

(** Number of patches, among those placed at [starts], that hold voxel
    [(i, j, k)]. *)
Definition visits (p : Z * Z * Z) (starts : list (Z * Z * Z)) (i j k : Z) : Z :=
  Z.of_nat (length (List.filter (fun s => in_box s.1.1 s.1.2 s.2 p i j k) starts)).

(** What [test_single_case] is run with.  [F] is the scalar type of the
    score map, with the operations the source applies to it: the zero of
    [np.zeros], the addition of two scores, the division of a score by a
    visit count, and the comparison behind [np.argmax].  [net] is the network
    applied to a patch, followed by the soft-max over the class axis that the
    [jisoo] mode selects (lines 113-132), an external collaborator:
    [net patch c i j k] is the probability of class [c] at voxel [(i, j, k)]
    of the patch. *)
Class inference_env : Type := InferenceEnv {
  F : Type;
  fzero : F;
  fplus : F -> F -> F;
  fquot : F -> Z -> F;
  fgt : F -> F -> bool;
  net : ndarray3 F -> Z -> Z -> Z -> Z -> F
}.

Section Inference.

Context {env : inference_env}.

(** The accumulators [score_map] and [cnt]. *)
Definition accum : Type := ndarray4 F * ndarray3 Z.

(** Lines 112-136: the body of the innermost loop at offsets [(xs, ys, zs)]. *)
Definition add_patch (image : ndarray3 F) (p : Z * Z * Z) (st : accum)
    (xs ys zs : Z) : accum :=
  let '(score_map, cnt) := st in
  let test_patch :=
    slice3 image xs (xs + p.1.1) ys (ys + p.1.2) zs (zs + p.2) in
  let y := net test_patch in
  (Array4 (shape4 score_map)
          (fun c i j k =>
             if in_box xs ys zs p i j k
             then fplus (at4 score_map c i j k) (y c (i - xs) (j - ys) (k - zs))
             else at4 score_map c i j k),
   Array3 (shape3 cnt)
          (fun i j k =>
             if in_box xs ys zs p i j k
             then at3 cnt i j k + 1
             else at3 cnt i j k)).

(** The loop body at an offset triple. *)
Definition place (image : ndarray3 F) (p : Z * Z * Z) (st : accum)
    (s : Z * Z * Z) : accum :=
  add_patch image p st s.1.1 s.1.2 s.2.

(** Lines 106-136: the three nested loops. *)
Definition patch_loops (image : ndarray3 F) (p : Z * Z * Z)
    (stride_xy stride_z : Z) (sx sy sz : Z) (st : accum) : accum :=
  let '(ww, hh, dd) := shape3 image in
  fold_left (fun st x =>
    let xs := axis_start ww p.1.1 stride_z x in
    fold_left (fun st y =>
      let ys := axis_start hh p.1.2 stride_xy y in
      fold_left (fun st z =>
        let zs := axis_start dd p.2 stride_xy z in
        add_patch image p st xs ys zs)
      (py_range 0 sz) st)
    (py_range 0 sy) st)
  (py_range 0 sx) st.

(** Lines 73-97: the padded image, with the flag and the left pads the final
    crop needs. *)
Definition pad_image (image : ndarray3 F) (p : Z * Z * Z)
  : ndarray3 F * bool * (Z * Z * Z) :=
  let '(w, h, d) := shape3 image in
  let add_pad := (w <? p.1.1) || (h <? p.1.2) || (d <? p.2) in
  let w_pad := pad_of w p.1.1 in
  let h_pad := pad_of h p.1.2 in
  let d_pad := pad_of d p.2 in
  let '(wl_pad, wr_pad) := (w_pad / 2, w_pad - w_pad / 2) in
  let '(hl_pad, hr_pad) := (h_pad / 2, h_pad - h_pad / 2) in
  let '(dl_pad, dr_pad) := (d_pad / 2, d_pad - d_pad / 2) in
  let image :=
    if add_pad
    then np_pad fzero image wl_pad wr_pad hl_pad hr_pad dl_pad dr_pad
    else image in
  (image, add_pad, (wl_pad, hl_pad, dl_pad)).

(** Lines 103-104: the zeroed accumulators. *)
Definition zero_accum (num_classes : Z) (shape : Z * Z * Z) : accum :=
  (Array4 (num_classes, shape.1.1, shape.1.2, shape.2) (fun _ _ _ _ => fzero),
   Array3 shape (fun _ _ _ => 0)).

(** Lines 97-136, on the padded image: offset counts, zeroed accumulators
    and the loops.  [np.zeros] (line 103) refuses a negative class count; a
    class count of zero gives empty score arrays, and the loops run. *)
Definition run_tiling (image : ndarray3 F) (stride_xy stride_z : Z)
    (patch_size : Z * Z * Z) (num_classes : Z) : result accum :=
  let '(ww, hh, dd) := shape3 image in
  sx ← axis_count ww patch_size.1.1 stride_z;
  sy ← axis_count hh patch_size.1.2 stride_xy;
  sz ← axis_count dd patch_size.2 stride_xy;
  if num_classes <? 0 then Raise ValueError else
  Ok (patch_loops image patch_size stride_xy stride_z sx sy sz
        (zero_accum num_classes (ww, hh, dd))).

(** [np.argmax] of a non-empty sequence: the first index of a best entry. *)
Fixpoint argmax_from (best : Z) (bv : F) (idx : Z) (vs : list F) : Z :=
  match vs with
  | [] => best
  | v :: vs' =>
      if fgt v bv then argmax_from idx v (idx + 1) vs'
      else argmax_from best bv (idx + 1) vs'
  end.

Definition np_argmax (vs : list F) : Z :=
  match vs with
  | [] => 0
  | v :: vs' => argmax_from 0 v 1 vs'
  end.

(** Line 137: [score_map / np.expand_dims(cnt, axis=0)]. *)
Definition normalize (score_map : ndarray4 F) (cnt : ndarray3 Z) : ndarray4 F :=
  Array4 (shape4 score_map)
         (fun c i j k => fquot (at4 score_map c i j k) (at3 cnt i j k)).

(** Line 138: [np.argmax(score_map, axis=0)]. *)
Definition argmax_axis0 (score_map : ndarray4 F) : ndarray3 Z :=
  let '(c, n0, n1, n2) := shape4 score_map in
  Array3 (n0, n1, n2)
         (fun i j k =>
            np_argmax (map (fun c => at4 score_map c i j k) (py_range 0 c))).

(** Line 138 as the source has it: [np.argmax] raises ValueError when the
    class axis is empty. *)
Definition argmax_classes (score_map : ndarray4 F) : result (ndarray3 Z) :=
  if (shape4 score_map).1.1.1 =? 0 then Raise ValueError
  else Ok (argmax_axis0 score_map).

(** [test_single_case] (lines 72-144); the unused arguments [jisoo], [label]
    and [pbar] are left out. *)
Definition test_single_case (image : ndarray3 F) (stride_xy stride_z : Z)
    (patch_size : Z * Z * Z) (num_classes : Z)
  : result (ndarray3 Z * ndarray4 F) :=
  let '(w, h, d) := shape3 image in
  let '(image, add_pad, (wl_pad, hl_pad, dl_pad)) :=
    pad_image image patch_size in
  '(score_map, cnt) ← run_tiling image stride_xy stride_z patch_size num_classes;
  let score_map := normalize score_map cnt in
  label_map ← argmax_classes score_map;
  if add_pad
  then Ok (slice3 label_map wl_pad (wl_pad + w) hl_pad (hl_pad + h)
                  dl_pad (dl_pad + d),
           slice4 score_map wl_pad (wl_pad + w) hl_pad (hl_pad + h)
                  dl_pad (dl_pad + d))
  else Ok (label_map, score_map).

End Inference.

(** *** The float instance and two concrete runs *)

(** A score divided by a visit count: the count is converted to a float. *)
Definition fdiv_count (x : pyfloat) (n : Z) : pyfloat := fdiv x (IZR n).

(** A network with two classes whose soft-max output is uniform. *)
Definition uniform_net (patch : ndarray3 pyfloat) (c i j k : Z) : pyfloat :=
  Fin (1 / 2).

(** The float instance of the environment. *)
Definition float_env : inference_env :=
  InferenceEnv pyfloat (Fin 0) fadd fdiv_count fbetter uniform_net.

(** A volume of shape [(6, 2, 2)], all zero. *)
Definition volume_6_2_2 : ndarray3 pyfloat :=
  Array3 (6, 2, 2) (fun _ _ _ => Fin 0).

(** A volume of shape [(3, 2, 2)], all zero. *)
Definition volume_3_2_2 : ndarray3 pyfloat :=
  Array3 (3, 2, 2) (fun _ _ _ => Fin 0).

(** A volume of shape [(6, 3, 1)], all zero, and what line 95 makes of it for
    the patch [(3, 2, 2)]: the third axis is padded from 1 to 2.  With
    stride_z = 2 and stride_xy = 1 the first axis gets the offsets 0, 2 and
    3 (the last one clamped), the second the offsets 0 and 1, the third the
    offset 0: six patches. *)
Definition volume_6_3_1 : ndarray3 pyfloat :=
  Array3 (6, 3, 1) (fun _ _ _ => Fin 0).
Definition padded_6_3_2 : ndarray3 pyfloat :=
  (pad_image (env := float_env) volume_6_3_1 (3, 2, 2)).1.1.

(** *** Lines 26-70 and 146-167: [getFiles], [test_all_case] and the call of
    [test_calculate_metric] *)

(** A directory as [os.listdir] and [os.path.isdir] show it: the names of its
    entries in listing order, each with the flag "is a directory". *)
Definition getFiles (entries : list (string * bool)) : list string :=
  map fst (List.filter (fun e => negb e.2) entries).

(** The order of Python strings (by code point, which for the bytes of a
    string is the lexicographic order of [String.leb]) and [sorted]. *)
Definition str_le (a b : string) : Prop := String.leb a b = true.

#[global] Instance str_le_dec (a b : string) : Decision (str_le a b).
Proof. unfold str_le. apply _. Defined.

Definition py_sorted (l : list string) : list string := merge_sort str_le l.

(** The character [_] (code 95). *)
Definition underscore : Ascii.ascii := Ascii.ascii_of_nat 95.

(** [s.split(sep)] for a separator of one character. *)
Fixpoint str_split (sep : Ascii.ascii) (s : string) : list string :=
  match s with
  | EmptyString => [EmptyString]
  | String c s' =>
      if Ascii.eqb c sep then EmptyString :: str_split sep s'
      else
        match str_split sep s' with
        | w :: ws => String c w :: ws
        | [] => [String c EmptyString]
        end
  end.

(** [sep in s]. *)
Fixpoint str_contains (sep : Ascii.ascii) (s : string) : bool :=
  match s with
  | EmptyString => false
  | String c s' => Ascii.eqb c sep || str_contains sep s'
  end.

(** Lines 66-67: [output2 + fname.split('_')[0] + "_" + fname.split('_')[1]
    + ".nii.gz"]. *)
Definition output_path (output2 fname : string) : result string :=
  match str_split underscore fname with
  | a :: b :: _ =>
      Ok (String.append
            (String.append (String.append (String.append output2 a) "_") b)
            ".nii.gz")
  | _ => Raise IndexError
  end.

(** Line 55: [prediction.astype(np.uint8)] on an integer array. *)
Definition astype_uint8 (a : ndarray3 Z) : ndarray3 Z :=
  Array3 (shape3 a) (fun i j k => at3 a i j k mod 256).

(** [a.flatten()]: the entries in row-major order. *)
Definition flatten3 {A} (a : ndarray3 A) : list A :=
  flat_map (fun i =>
    flat_map (fun j => map (fun k => at3 a i j k) (py_range 0 (shape3 a).2))
      (py_range 0 (shape3 a).1.2))
    (py_range 0 (shape3 a).1.1).

(** Lines 35-37: [np.unique(label_image).tolist()], the distinct entries in
    ascending order. *)
Definition extract_categories (label_image : ndarray3 Z) : list Z :=
  merge_sort Z.le (remove_dups (flatten3 label_image)).

(** [sitk.GetArrayFromImage(sitk.ReadImage(os.path.join(dir, fname)))], an
    external collaborator that can raise. *)
Class volume_reader {env : inference_env} : Type := VolumeReader {
  read_volume : string -> string -> result (ndarray3 F)
}.

Section AllCases.

Context {env : inference_env} {reader : volume_reader}.

(** Lines 43-69, the body of the loop of [test_all_case] for one file name:
    what is written, and under which path.  Line 52 reads the local variable
    [image], which no statement of the function assigns before: Python
    raises [UnboundLocalError], a [NameError].  The spacing, origin and
    direction copied at lines 61-63 and the printed category list are left
    out. *)
Definition test_case (imdir maskdir output2 : string) (num_classes : Z)
    (patch_size : Z * Z * Z) (stride_xy stride_z : Z)
    (preproc_fn : option (ndarray3 F -> ndarray3 F)) (fname : string)
  : result (string * ndarray3 Z) :=
  im_x_y ← read_volume imdir fname;
  label ← read_volume maskdir fname;
  _ ← match preproc_fn with
      | Some _ => Raise (NameError "image")
      | None => Ok tt
      end;
  '(prediction, score_map) ←
    test_single_case im_x_y stride_xy stride_z patch_size num_classes;
  let prediction := astype_uint8 prediction in
  path ← output_path output2 fname;
  Ok (path, prediction).

(** The loop of lines 42-69 over file names: the files written so far, in
    the order of the calls of [sitk.WriteImage], and how the loop ends. *)
Fixpoint test_cases (imdir maskdir output2 : string) (num_classes : Z)
    (patch_size : Z * Z * Z) (stride_xy stride_z : Z)
    (preproc_fn : option (ndarray3 F -> ndarray3 F)) (names : list string)
    (written : list (string * ndarray3 Z))
  : list (string * ndarray3 Z) * result unit :=
  match names with
  | [] => (written, Ok tt)
  | fname :: names' =>
      match test_case imdir maskdir output2 num_classes patch_size stride_xy
              stride_z preproc_fn fname with
      | Ok w =>
          test_cases imdir maskdir output2 num_classes patch_size stride_xy
            stride_z preproc_fn names' (written ++ [w])
      | Raise e => (written, Raise e)
      end
  end.

(** [test_all_case] (lines 39-69); [entries] is the content of [imdir].  The
    unused arguments [net], [jisoo], [save_result], [test_save_path] and
    [pbar] are left out. *)
Definition test_all_case (entries : list (string * bool))
    (imdir maskdir output2 : string) (num_classes : Z)
    (patch_size : Z * Z * Z) (stride_xy stride_z : Z)
    (preproc_fn : option (ndarray3 F -> ndarray3 F))
  : list (string * ndarray3 Z) * result unit :=
  test_cases imdir maskdir output2 num_classes patch_size stride_xy stride_z
    preproc_fn (py_sorted (getFiles entries)) [].

(** Lines 147-167: the call of [test_all_case] by [test_calculate_metric].
    The network is built and loaded before the call (lines 157-163) and the
    metrics are computed from the written files after it (lines 170-176);
    both are outside this model. *)
Definition test_calculate_metric (entries : list (string * bool))
  : list (string * ndarray3 Z) * result unit :=
  test_all_case entries "./test/" "./test_label/" "./predict/" 14
    (64, 160, 160) 80 32 None.

End AllCases.

(** A reader that finds the volume of shape [(3, 2, 2)] under every name, and
    a directory with two files and one sub-directory. *)
Definition sample_reader : @volume_reader float_env :=
  @VolumeReader float_env (fun _ _ => Ok volume_3_2_2).
Definition sample_entries : list (string * bool) :=
  [ ("case_0002_0000.nii.gz", false); ("old", true);
    ("case_0001_0000.nii.gz", false) ]%string.

End Predict.

(** ** [src/train_semi_3Dmt_dist.py] *)

(** [main] is modelled statement by statement for the parts listed at the
    top of the file.  Its start-up code (logging, the construction of the
    models, the optimizer and the loaders, lines 60-128) and the
    [AverageMeter] updates are not modelled.  Of the argument parsing only
    the attributes of the namespace are modelled (line 89 reads
    [args.teacher_ckpt], an option that the parser of lines 27-41 does not
    define), of the log line of lines 221-223 only its condition, and of the
    evaluation of lines 224-252 only the two mean Dice values it hands to the
    bookkeeping of lines 253-261. *)

Module Train.

Local Open Scope R_scope.

(** *** Tensors, models and the optimizer *)

(** A float tensor, flattened; operands of one element-wise operation have
    the same shape throughout the source (the teacher is a deep copy of the
    student, and the maps of one batch share the batch's volume shape). *)
Abbreviation tensor := (list R).

(** What [parameters()] and [buffers()] iterate over. *)
Record module_state : Type := ModuleState {
  parameters : list tensor;
  buffers : list tensor
}.

(** [AdamW]: the parameter groups (dicts with the key "lr" among others) and
    the moment estimates. *)
Record optimizer_state : Type := Optimizer {
  param_groups : list (gmap string R);
  moments : list tensor
}.

(** The options of the two configuration sources that the modelled code
    reads: [cfg] (the yaml file) and [args] (the command line). *)
Record config : Type := Config {
  cfg_lr : R;
  cfg_conf_thresh : R;
  cfg_epochs : Z
}.

Record arguments : Type := Args {
  consistency : R;
  consistency_rampup : R
}.

(** The variables of [main] that a checkpoint holds. *)
Record train_state : Type := TrainState {
  model : module_state;
  model_ema : module_state;
  optimizer : optimizer_state;
  epoch : Z;
  pre_best_dice1 : R;
  pre_best_dice2 : R;
  best_epoch_1 : Z;
  best_epoch_2 : Z;
  iter_num : Z
}.

(** One element of [zip(trainloader_l, trainloader_u)]. *)
Record batch : Type := Batch {
  img_x : tensor;
  mask_x : list Z;
  img_u_w : tensor;
  img_u_s : tensor;
  ignore_mask : list Z
}.

(** One call of [writer.add_scalar(tag, value, step)]. *)
Record scalar : Type := Scalar {
  tag : string;
  value : pyfloat;
  step : Z
}.

(** *** Lines 43-59: the consistency ramp-up *)

(** [np.clip(x, lo, hi)]. *)
Definition np_clip (x lo hi : R) : R := Rmin (Rmax x lo) hi.

Definition sigmoid_rampup (current rampup_length : R) : R :=
  if Reqb rampup_length 0 then 1
  else
    let current := np_clip current 0 rampup_length in
    let phase := 1 - current / rampup_length in
    exp (-5 * phase * phase).

Definition get_current_consistency_weight (args : arguments) (epoch : Z) : R :=
  consistency args * sigmoid_rampup (IZR epoch) (consistency_rampup args).

(** *** Lines 184-188: the masked unsupervised loss and the combined loss *)

(** A boolean tensor entry as a factor of a float product. *)
Definition b2r (b : bool) : R := if b then 1 else 0.

(** [t.sum()] on a float and on a boolean tensor. *)
Definition tensor_sum (t : tensor) : R := fold_right Rplus 0 t.
Definition count_true (bs : list bool) : Z :=
  fold_right (fun (b : bool) (n : Z) => ((if b then 1 else 0) + n)%Z) 0%Z bs.

(** [conf_u_w >= thresh] and [ignore_mask != 255]. *)
Definition confident (conf_u_w : tensor) (thresh : R) : list bool :=
  map (fun c => Rleb thresh c) conf_u_w.
Definition not_ignored (ignore_mask : list Z) : list bool :=
  map (fun g => negb (g =? 255)%Z) ignore_mask.

(** Lines 185-186, applied to the per-voxel cross-entropy of line 184. *)
Definition unsup_loss (loss_u_s conf_u_w : tensor) (ignore_mask : list Z)
    (thresh : R) : pyfloat :=
  let keep := zip_with andb (confident conf_u_w thresh)
                            (not_ignored ignore_mask) in
  let loss_u_s := zip_with (fun l b => l * b2r b) loss_u_s keep in
  fdiv (Fin (tensor_sum loss_u_s)) (IZR (count_true (not_ignored ignore_mask))).

(** Line 188. *)
Definition combined_loss (loss_x loss_u_s : pyfloat) : pyfloat :=
  fdiv (fadd loss_x loss_u_s) 2.

(** Line 199. *)
Definition mask_ratio (conf_u_w : tensor) (ignore_mask : list Z) (thresh : R)
  : pyfloat :=
  fdiv (Fin (IZR (count_true (zip_with andb (confident conf_u_w thresh)
                                            (not_ignored ignore_mask)))))
       (IZR (count_true (not_ignored ignore_mask))).

(** The masked loss in the words of the specification: the sum of the
    per-voxel losses over the voxels whose confidence reaches the threshold
    and that are not ignored, and the number of voxels that are not ignored. *)
Fixpoint qualifying_sum (loss conf : tensor) (ignore_mask : list Z)
    (thresh : R) : R :=
  match loss, conf, ignore_mask with
  | l :: ls, c :: cs, g :: gs =>
      (if Rleb thresh c && negb (g =? 255)%Z then l else 0)
      + qualifying_sum ls cs gs thresh
  | _, _, _ => 0
  end.
Definition non_ignored_count (ignore_mask : list Z) : Z :=
  Z.of_nat (length (List.filter (fun g => negb (g =? 255)%Z) ignore_mask)).

(** *** Lines 202-210: learning rate and teacher update *)

(** [x ** y] on floats.  A zero base gives 1, 0 or an error according to the
    sign of the exponent.  A negative base with a fractional exponent gives a
    complex number, which this model of floats does not hold: it is reported
    as [ComplexPower]. *)
Definition float_pow (x y : R) : result R :=
  if Rltb x 0 then Raise ComplexPower
  else if Reqb x 0
  then (if Reqb y 0 then Ok 1
        else if Rltb 0 y then Ok 0 else Raise ZeroDivisionError)
  else Ok (Rpower x y).

(** Line 203. *)
Definition poly_lr (base_lr : R) (iters total_iters : Z) : result R :=
  if (total_iters =? 0)%Z then Raise ZeroDivisionError
  else
    pw ← float_pow (1 - IZR iters / IZR total_iters) 0.9;
    Ok (base_lr * pw).

(** Line 204: [optimizer.param_groups[0]["lr"] = lr]. *)
Definition set_lr (opt : optimizer_state) (lr : R) : result optimizer_state :=
  match param_groups opt with
  | [] => Raise IndexError
  | g :: gs => Ok (Optimizer (<["lr" := lr]> g :: gs) (moments opt))
  end.

(** Line 205. *)
Definition ema_ratio_at (iters : Z) : result R :=
  if (iters + 1 =? 0)%Z then Raise ZeroDivisionError
  else Ok (Rmin (1 - 1 / IZR (iters + 1)) 0.996).

(** [param_ema * ema_ratio + param.detach() * (1 - ema_ratio)], on real
    entries: the rounding of float32 and the truncation that [copy_] makes
    when the target is an integer buffer are outside this model. *)
Definition ema_blend (ema_ratio : R) (param_ema param : tensor) : tensor :=
  zip_with (fun pe p => pe * ema_ratio + p * (1 - ema_ratio)) param_ema param.

(** One of the two loops of lines 207-210: [zip] stops at the shorter list,
    and [copy_] overwrites the teacher's tensor in place, so teacher tensors
    beyond the student's stay as they are. *)
Fixpoint ema_loop (ema_ratio : R) (student teacher : list tensor)
  : list tensor :=
  match student, teacher with
  | p :: ps, pe :: pes => ema_blend ema_ratio pe p :: ema_loop ema_ratio ps pes
  | _, pes => pes
  end.

(** Lines 207-210. *)
Definition ema_update (ema_ratio : R) (student teacher : module_state)
  : module_state :=
  ModuleState (ema_loop ema_ratio (parameters student) (parameters teacher))
              (ema_loop ema_ratio (buffers student) (buffers teacher)).

(** *** Lines 129-147 and 263-274: checkpoints *)

(** The dict of a checkpoint file as [torch.load] returns it: for each of
    the nine keys that [main] reads, the value stored under it, if there is
    one.  The values are of the kinds the script stores (the state of a
    network or of the optimizer, an integer, a number); a value of another
    kind and entries under other keys, which [main] never reads, are not
    part of this model. *)
Record checkpoint : Type := Checkpoint {
  ck_model : option module_state;
  ck_model_ema : option module_state;
  ck_optimizer : option optimizer_state;
  ck_epoch : option Z;
  ck_previous_best_1 : option R;
  ck_previous_best_2 : option R;
  ck_best_epoch : option Z;
  ck_best_epoch_ema : option Z;
  ck_iter_num : option Z
}.

(** Lines 263-273: the dict that is saved. *)
Definition checkpoint_of (st : train_state) : checkpoint :=
  Checkpoint (Some (model st)) (Some (model_ema st)) (Some (optimizer st))
    (Some (epoch st)) (Some (pre_best_dice1 st)) (Some (pre_best_dice2 st))
    (Some (best_epoch_1 st)) (Some (best_epoch_2 st)) (Some (iter_num st)).

(** The files under the checkpoint directory: path to unpickled content. *)
Abbreviation files := (gmap string checkpoint).

(** Line 274: [torch.save(checkpoint, latest)]. *)
Definition save_latest (fs : files) (latest : string) (st : train_state)
  : files :=
  <[latest := checkpoint_of st]> fs.

(** [checkpoint[key]]: a missing key is a KeyError. *)
Definition getitem {A} (entry : option A) (key : string) : result A :=
  match entry with
  | Some v => Ok v
  | None => Raise (KeyError key)
  end.

(** Lines 129-132: the variables of a run that starts from scratch, around
    the models and the optimizer built at lines 80-97. *)
Definition fresh_state (student teacher : module_state)
    (opt : optimizer_state) : train_state :=
  TrainState student teacher opt (-1) 0.78 0.78 0 0 0.

(** Lines 129-146: [latest] is [os.path.join(cp_path, 'latest.pth')]. *)
Definition resume (fs : files) (latest : string) (student teacher : module_state)
    (opt : optimizer_state) : result train_state :=
  let st := fresh_state student teacher opt in
  match fs !! latest with
  | None => Ok st
  | Some checkpoint =>
      model ← getitem (ck_model checkpoint) "model";
      model_ema ← getitem (ck_model_ema checkpoint) "model_ema";
      optimizer ← getitem (ck_optimizer checkpoint) "optimizer";
      epoch ← getitem (ck_epoch checkpoint) "epoch";
      pre_best_dice1 ← getitem (ck_previous_best_1 checkpoint) "previous_best_1";
      pre_best_dice2 ← getitem (ck_previous_best_2 checkpoint) "previous_best_2";
      best_epoch_1 ← getitem (ck_best_epoch checkpoint) "best_epoch";
      best_epoch_2 ← getitem (ck_best_epoch_ema checkpoint) "best_epoch_ema";
      iter_num ← getitem (ck_iter_num checkpoint) "iter_num";
      Ok (TrainState model model_ema optimizer epoch pre_best_dice1
            pre_best_dice2 best_epoch_1 best_epoch_2 iter_num)
  end.


(** *** Lines 170-219: one training iteration *)

(** What one iteration hands back: the updated variables of [main], the loss
    that was back-propagated, and the scalars written by rank 0. *)
Record iteration_out : Type := IterationOut {
  new_state : train_state;
  out_loss_x : pyfloat;
  out_loss_u_s : pyfloat;
  out_loss : pyfloat;
  out_consistency_weight : R;
  out_lr : R;
  out_ema_ratio : R;
  scalars : list scalar
}.

(** External collaborators.  [forward m img] is the network with state [m]
    applied to [img]; [softmax_max] and [argmax_class] are
    [softmax(dim=1).max(dim=1)[0]] and [argmax(dim=1)]; [criterion_l] is the
    configured supervised loss and [criterion_u] the per-voxel cross-entropy
    ([reduction='none']).  [adamw_step loss m opt] stands for lines 180-194 as
    far as they change the student: the forward passes in training mode,
    [zero_grad], the backward pass of [loss] (a function of the student's
    state) and [optimizer.step()]; it returns the student's new state and the
    new moment estimates, and leaves the parameter groups alone.  With
    [torch.autograd.set_detect_anomaly(True)] (line 192) the backward pass of
    line 193 raises a RuntimeError when it meets a NaN: [adamw_step] can
    raise. *)
Class collaborators : Type := Collaborators {
  forward : module_state -> tensor -> tensor;
  softmax_max : tensor -> tensor;
  argmax_class : tensor -> list Z;
  criterion_l : tensor -> list Z -> pyfloat;
  criterion_u : tensor -> list Z -> tensor;
  adamw_step :
    (module_state -> pyfloat) -> module_state -> optimizer_state ->
    result (module_state * list tensor)
}.

Section Training.

Context {torch : collaborators}.

(** Lines 180-188 as a function of the student's state: the supervised loss,
    the masked unsupervised loss and their combination.  [img_u_s1] is the
    argument of the second forward pass (line 181). *)
Definition loss_terms (student : module_state) (b : batch) (img_u_s1 : tensor)
    (mask_u_w : list Z) (conf_u_w : tensor) (conf_thresh : R)
  : pyfloat * pyfloat * pyfloat :=
  let pred_x := forward student (img_x b) in
  let pred_u_s := forward student img_u_s1 in
  let loss_x := criterion_l pred_x (mask_x b) in
  let loss_u_s := criterion_u pred_u_s mask_u_w in
  let loss_u_s := unsup_loss loss_u_s conf_u_w (ignore_mask b) conf_thresh in
  (loss_x, loss_u_s, combined_loss loss_x loss_u_s).

(** Lines 213-219: the scalars rank 0 writes. *)
Definition iteration_scalars (rank : Z) (consistency_weight : R)
    (loss loss_x loss_u_s mask_ratio : pyfloat) (lr : R) (iter_num iters : Z)
  : list scalar :=
  if (rank =? 0)%Z
  then [ Scalar "consistency_weight/consistency_weight"
                (Fin consistency_weight) iter_num;
         Scalar "train/loss_all" loss iters;
         Scalar "train/lr" (Fin lr) iters;
         Scalar "train/loss_x" loss_x iters;
         Scalar "train/loss_s" loss_u_s iters;
         Scalar "train/mask_ratio" mask_ratio iters ]
  else [].

(** Lines 175-178: the teacher's confidence map and pseudo-labels. *)
Definition pseudo_labels (st : train_state) (b : batch) : tensor * list Z :=
  let pred_u_w := forward (model_ema st) (img_u_w b) in
  (softmax_max pred_u_w, argmax_class pred_u_w).

(** The three losses of the iteration as functions of the student's state;
    the third one is the loss whose gradient line 193 takes. *)
Definition iteration_losses (cfg : config) (b : batch) (img_u_s1 : tensor)
    (st : train_state) (student : module_state) : pyfloat * pyfloat * pyfloat :=
  let '(conf_u_w, mask_u_w) := pseudo_labels st b in
  loss_terms student b img_u_s1 mask_u_w conf_u_w (cfg_conf_thresh cfg).

(** Lines 172-219, the body of the inner loop, for the object that the read
    of the name [img_u_s1] at line 181 gives: [train_iteration] below reads
    the name and hands the object over, and as the source is written that
    read never succeeds.  [len_u] is [len(trainloader_u)] and [i] the index
    of the batch in the epoch; the current epoch is [epoch st]. *)
Definition loop_body (cfg : config) (args : arguments) (rank len_u i : Z)
    (b : batch) (img_u_s1 : tensor) (st : train_state) : result iteration_out :=
  let total_iters := (len_u * cfg_epochs cfg)%Z in
  let '(conf_u_w, mask_u_w) := pseudo_labels st b in
  let '(loss_x, loss_u_s, loss) :=
    iteration_losses cfg b img_u_s1 st (model st) in
  let consistency_weight :=
    get_current_consistency_weight args (iter_num st / 200)%Z in
  let iter_num := (iter_num st + 1)%Z in
  '(student, moments) ←
    adamw_step (fun student => (iteration_losses cfg b img_u_s1 st student).2)
      (model st) (optimizer st);
  let opt := Optimizer (param_groups (optimizer st)) moments in
  let mask_ratio := mask_ratio conf_u_w (ignore_mask b) (cfg_conf_thresh cfg) in
  let iters := (epoch st * len_u + i)%Z in
  lr ← poly_lr (cfg_lr cfg) iters total_iters;
  opt ← set_lr opt lr;
  ema_ratio ← ema_ratio_at iters;
  let teacher := ema_update ema_ratio student (model_ema st) in
  Ok (IterationOut
        (TrainState student teacher opt (epoch st) (pre_best_dice1 st)
           (pre_best_dice2 st) (best_epoch_1 st) (best_epoch_2 st) iter_num)
        loss_x loss_u_s loss consistency_weight lr ema_ratio
        (iteration_scalars rank consistency_weight loss loss_x loss_u_s
           mask_ratio lr iter_num iters)).

(** *** Name resolution at line 181 *)

(** A Python object, as far as the name look-up needs it. *)
Inductive pyobj : Type :=
| ObjTensor (t : tensor)
| ObjLabels (l : list Z)
| ObjOther.

(** The names bound at module level when [main] runs (lines 1-53), followed
    by the builtins the script mentions. *)
Definition global_names : list string :=
  [ "argparse"; "deepcopy"; "logging"; "time"; "os"; "pprint"; "np"; "yaml";
    "torch"; "nn"; "cudnn"; "AdamW"; "DataLoader"; "SummaryWriter";
    "DistributedSampler"; "Flare3Dataset"; "unet_3D_mt";
    "kaiming_normal_init_weight"; "xavier_normal_init_weight";
    "sparse_init_weight"; "CLASSES"; "ProbOhemCrossEntropy2d"; "count_params";
    "init_log"; "AverageMeter"; "setup_distributed"; "test_all_case";
    "parser"; "sigmoid_rampup"; "main";
    "open"; "vars"; "int"; "float"; "list"; "str"; "len"; "print"; "range";
    "zip"; "enumerate"; "hasattr"; "min"; "max"; "NotImplementedError" ]%string.

(** The local variables [main] can have assigned when the inner loop starts
    (lines 54-169). *)
Definition local_names : list string :=
  [ "args"; "cfg"; "get_current_consistency_weight"; "save_path"; "cp_path";
    "logger"; "rank"; "world_size"; "all_args"; "writer"; "start_time";
    "model"; "local_rank"; "model_ema"; "state_dict"; "param"; "optimizer";
    "criterion_l"; "criterion_u"; "num_gpus"; "trainset_u"; "trainset_l";
    "valset"; "trainsampler_l"; "trainloader_l"; "trainsampler_u";
    "trainloader_u"; "valsampler"; "valloader"; "total_iters";
    "pre_best_dice1"; "pre_best_dice2"; "best_epoch_1"; "best_epoch_2";
    "epoch"; "iter_num"; "checkpoint"; "total_loss"; "total_loss_x";
    "total_loss_s"; "total_loss_s1"; "total_loss_s2"; "total_mask_ratio";
    "loader"; "is_best" ]%string.

Definition namespace_of (names : list string) : gmap string pyobj :=
  list_to_map (map (fun n => (n, ObjOther)) names).

(** The frame of [main] when line 181 runs: the variables above, the targets
    of the loop header (lines 170-171) and the variables of lines 172-180. *)
Definition frame_at_181 (b : batch) (st : train_state) : gmap string pyobj :=
  let pred_u_w := forward (model_ema st) (img_u_w b) in
  <["pred_x" := ObjTensor (forward (model st) (img_x b))]>
  (<["mask_u_w" := ObjLabels (argmax_class pred_u_w)]>
  (<["conf_u_w" := ObjTensor (softmax_max pred_u_w)]>
  (<["pred_u_w" := ObjTensor pred_u_w]>
  (<["ignore_mask" := ObjLabels (ignore_mask b)]>
  (<["img_u_s" := ObjTensor (img_u_s b)]>
  (<["img_u_w" := ObjTensor (img_u_w b)]>
  (<["mask_x" := ObjLabels (mask_x b)]>
  (<["img_x" := ObjTensor (img_x b)]>
  (<["i" := ObjOther]> (namespace_of local_names)))))))))).

(** Reading a name inside [main]: the frame first, then the module's
    globals and the builtins. *)
Definition load_name (frame : gmap string pyobj) (name : string)
  : result pyobj :=
  match frame !! name with
  | Some v => Ok v
  | None =>
      match namespace_of global_names !! name with
      | Some v => Ok v
      | None => Raise (NameError name)
      end
  end.

(** One pass through the body of the inner loop as the source has it: line
    181 reads the name [img_u_s1]. *)
Definition train_iteration (cfg : config) (args : arguments) (rank len_u i : Z)
    (b : batch) (st : train_state) : result iteration_out :=
  v ← load_name (frame_at_181 b st) "img_u_s1";
  match v with
  | ObjTensor img_u_s1 => loop_body cfg args rank len_u i b img_u_s1 st
  | _ => Raise TypeError
  end.

End Training.

(** *** A small concrete run

    Stand-ins for the external collaborators and a state inside the loops
    (epoch 0 of 2, batch 1 of 3), used to instantiate the theorems below. *)
Definition sample_forward (m : module_state) (img : tensor) : tensor := img.
Definition sample_softmax_max (pred : tensor) : tensor := pred.
Definition sample_argmax_class (pred : tensor) : list Z :=
  map (fun _ => 0%Z) pred.
Definition sample_criterion_l (pred : tensor) (mask : list Z) : pyfloat :=
  Fin (tensor_sum pred).
Definition sample_criterion_u (pred : tensor) (labels : list Z) : tensor :=
  pred.
Definition sample_adamw_step (loss : module_state -> pyfloat)
    (m : module_state) (opt : optimizer_state)
  : result (module_state * list tensor) :=
  match loss m with
  | Fin _ => Ok (m, moments opt)
  | _ => Raise RuntimeError
  end.
Definition sample_torch : collaborators :=
  Collaborators sample_forward sample_softmax_max sample_argmax_class
    sample_criterion_l sample_criterion_u sample_adamw_step.
Definition sample_cfg : config := Config 0.001 0.95 2.
Definition sample_args : arguments := Args 0.1 200.
Definition sample_batch : batch := Batch [1] [0%Z] [1] [1] [0%Z].
Definition sample_group : gmap string R := {["lr" := 0.001]}.
Definition sample_state : train_state :=
  TrainState (ModuleState [[2]] [[1]]) (ModuleState [[0]] [[1]])
    (Optimizer [sample_group] []) 0 0.78 0.78 0 0 0.
Definition sample_latest : string := "checkpoints/latest.pth".


(** The variables of [main] as a run has saved them after its fifth epoch
    (epoch 4, three batches per epoch). *)
Definition sample_saved : train_state :=
  TrainState (ModuleState [[2]] [[1]]) (ModuleState [[1.5]] [[1]])
    (Optimizer [sample_group] [[0.25]]) 4 0.81 0.83 2 3 15.


(** *** Lines 224-276: evaluation, best-model bookkeeping and the files
    saved at the end of an epoch *)

(** Line 224. *)
Definition evaluation_due (iter_num total_iters epoch : Z) : bool :=
  Rleb (0.7 * IZR total_iters) (IZR iter_num) && (epoch mod 5 =? 0)%Z.

(** [max(a, b)] of two Python floats: [b] if [b > a], else [a]. *)
Definition py_max (a b : R) : R := if Rltb a b then b else a.

(** Lines 253-261, for the mean Dice values [mDICE1] of the student and
    [mDICE2] of the teacher; the current epoch is [epoch st]. *)
Definition update_best (mDICE1 mDICE2 : R) (st : train_state)
  : bool * train_state :=
  let is_best :=
    Rleb (pre_best_dice1 st) mDICE1 || Rleb (pre_best_dice2 st) mDICE2 in
  let pre_best_dice1 := py_max mDICE1 (pre_best_dice1 st) in
  let pre_best_dice2 := py_max mDICE2 (pre_best_dice2 st) in
  let best_epoch_1 :=
    if Reqb mDICE1 pre_best_dice1 then epoch st else best_epoch_1 st in
  let best_epoch_2 :=
    if Reqb mDICE2 pre_best_dice2 then epoch st else best_epoch_2 st in
  (is_best,
   TrainState (model st) (model_ema st) (optimizer st) (epoch st)
     pre_best_dice1 pre_best_dice2 best_epoch_1 best_epoch_2 (iter_num st)).

(** External collaborators of the end of an epoch.  [mean_dice m] is
    [avg_metric[:, 0].mean().item()] for the project's validation run
    (lines 226-234) of the network with state [m], a finite float; the run is
    in evaluation mode and leaves the state as it is.  [best_name epoch
    mDICE1 mDICE2] is the path built at line 276. *)
Class evaluator : Type := Evaluator {
  mean_dice : module_state -> R;
  best_name : Z -> R -> R -> string
}.

Section Epochs.

Context {val : evaluator}.

(** Lines 169 and 224-276, as far as they concern the variables of [main]
    and the files that [torch.save] writes: what the end of an epoch does to
    the checkpoint store and to the bookkeeping.  [latest] is
    [os.path.join(cp_path, 'latest.pth')].  The log lines and the
    TensorBoard scalars of lines 240-251, and whatever the validation routine
    writes, are not part of this model. *)
Definition end_of_epoch (cfg : config) (len_u : Z) (latest : string)
    (fs : files) (st : train_state) : files * train_state :=
  let total_iters := (len_u * cfg_epochs cfg)%Z in
  let '(is_best, mDICE, st) :=
    if evaluation_due (iter_num st) total_iters (epoch st)
    then
      let mDICE1 := mean_dice (model st) in
      let mDICE2 := mean_dice (model_ema st) in
      let '(is_best, st) := update_best mDICE1 mDICE2 st in
      (is_best, Some (mDICE1, mDICE2), st)
    else (false, None, st) in
  let fs := save_latest fs latest st in
  match is_best, mDICE with
  | true, Some (mDICE1, mDICE2) =>
      (<[best_name (epoch st) mDICE1 mDICE2 := checkpoint_of st]> fs, st)
  | _, _ => (fs, st)
  end.

End Epochs.

(** *** Lines 26-41, 54 and 89: the command line *)

(** The [dest] of every option the parser declares (lines 27-41). *)
Definition parser_dests : list string :=
  [ "config"; "base_dir"; "save_path"; "log_file"; "exp"; "checkpoint_path";
    "val_patch_size"; "val_xy"; "val_z"; "local_rank"; "port"; "num";
    "consistency_rampup"; "consistency" ]%string.

(** Line 54, [parser.parse_args()], when it returns: the namespace has one
    attribute per declared option, holding the value given on the command
    line or else the option's default, and no other attribute.  [given] maps
    the dests of the options on the command line to their values. *)
Definition parse_args (defaults : string -> pyobj) (given : gmap string pyobj)
  : gmap string pyobj :=
  list_to_map
    ((fun d => (d, match given !! d with
                   | Some v => v
                   | None => defaults d
                   end)) <$> parser_dests).

(** [args.name]; [None] stands for Python's AttributeError. *)
Definition args_attr (args : gmap string pyobj) (name : string)
  : option pyobj :=
  args !! name.

(** [args.name] as a statement of [main] reads it. *)
Definition read_attr (args : gmap string pyobj) (name : string)
  : result pyobj :=
  match args_attr args name with
  | Some v => Ok v
  | None => Raise (AttributeError name)
  end.

(** [main] from line 54 to the epoch loop of line 147, as far as the
    statements modelled above go.  The rest is external and can raise:
    [startup] stands for lines 55-88 (configuration file, directories,
    logger, process group, student network), [load_teacher path] for what
    lines 89-93 do with the attribute they read ([torch.load] and
    [load_state_dict] on the copy of the student, giving the teacher), and
    [setup] for lines 95-128 (optimizer, criteria, data sets and loaders).
    [student] and [opt] are the student network and the optimizer these
    lines build. *)
Definition main_start (startup : result unit)
    (load_teacher : pyobj -> result module_state) (setup : result unit)
    (defaults : string -> pyobj) (given : gmap string pyobj)
    (fs : files) (latest : string) (student : module_state)
    (opt : optimizer_state) : result train_state :=
  let args := parse_args defaults given in
  _ ← startup;
  teacher_ckpt ← read_attr args "teacher_ckpt";
  teacher ← load_teacher teacher_ckpt;
  _ ← setup;
  resume fs latest student teacher opt.

(** The attributes of [args] that [main] reads, in the order of their first
    use (lines 55-233). *)
Definition main_attrs : list string :=
  [ "config"; "consistency"; "consistency_rampup"; "save_path"; "exp";
    "checkpoint_path"; "port"; "teacher_ckpt"; "base_dir"; "val_patch_size";
    "val_xy"; "val_z" ]%string.

(** *** Lines 212 and 221: the log line of an iteration *)

(** Whether the iteration with index [i] writes the log line: only rank 0
    evaluates the test [i % (len(trainloader_u) // 3) == 0]. *)
Definition log_due (rank len_u i : Z) : result bool :=
  if (rank =? 0)%Z
  then
    if (len_u / 3 =? 0)%Z then Raise ZeroDivisionError
    else Ok (i mod (len_u / 3) =? 0)%Z
  else Ok false.





(** A stand-in for the evaluation: the mean Dice is the first entry of the
    first parameter tensor. *)
Definition sample_mean_dice (m : module_state) : R :=
  match parameters m with
  | (x :: _) :: _ => x
  | _ => 0
  end.
Definition sample_evaluator : evaluator :=
  Evaluator sample_mean_dice (fun _ _ _ => "checkpoints/best.pth"%string).

(** The end of the only epoch of a run of one epoch with three batches. *)
Definition sample_cfg_one : config := Config 0.001 0.95 1.
Definition sample_state_end : train_state :=
  TrainState (ModuleState [[2]] [[1]]) (ModuleState [[0]] [[1]])
    (Optimizer [sample_group] []) 0 0.78 0.78 0 0 3.

End Train.

(** ** Facts about [src/predict.py] *)

Module PredictFacts.

Import Predict.

Section Inference.

Context {env : inference_env}.

(** *** Offsets along one axis *)

Lemma ceil_div_pos (a b : Z) :
  0 < b -> exists q, ceil_div a b = Ok q /\ b * (q - 1) < a <= b * q.
Proof.
  intros Hb. unfold ceil_div.
  destruct (Z.eqb_spec b 0) as [->|_]; [lia|].
  exists (- (- a / b)). split; [reflexivity|].
  pose proof (Z.div_mod (- a) b ltac:(lia)) as Hdm.
  pose proof (Z.mod_pos_bound (- a) b Hb) as Hm.
  nia.
Qed.

Lemma ceil_div_nonzero (a b : Z) :
  b <> 0 -> ceil_div a b = Ok (- (- a / b)).
Proof.
  intros Hb. unfold ceil_div. destruct (Z.eqb_spec b 0); [contradiction|reflexivity].
Qed.

Lemma axis_starts_nonzero (extent patch stride : Z) :
  stride <> 0 ->
  axis_starts extent patch stride =
  Ok (map (axis_start extent patch stride)
        (py_range 0 (- (- (extent - patch) / stride) + 1))).
Proof.
  intros Hs. unfold axis_starts, axis_count.
  rewrite (ceil_div_nonzero _ _ Hs). reflexivity.
Qed.

Lemma axis_starts_pos (extent patch stride : Z) :
  0 < stride -> patch <= extent ->
  exists q, stride * (q - 1) < extent - patch <= stride * q /\ 0 <= q /\
    axis_count extent patch stride = Ok (q + 1) /\
    axis_starts extent patch stride =
      Ok (map (axis_start extent patch stride) (py_range 0 (q + 1))).
Proof.
  intros Hs Hp.
  destruct (ceil_div_pos (extent - patch) stride Hs) as (q & Hq & Hb).
  exists q. unfold axis_starts, axis_count. rewrite Hq. cbn.
  repeat split; first [lia | nia | reflexivity].
Qed.

Lemma axis_starts_length (extent patch stride q : Z) :
  0 <= q ->
  Z.of_nat (length (map (axis_start extent patch stride) (py_range 0 (q + 1))))
  = q + 1.
Proof.
  intros Hq. rewrite length_map. unfold py_range. rewrite length_seqZ. lia.
Qed.

Lemma axis_starts_last (extent patch stride q : Z) :
  0 <= q -> extent - patch <= stride * q ->
  last (map (axis_start extent patch stride) (py_range 0 (q + 1)))
  = Some (extent - patch).
Proof.
  intros Hq Hb. unfold py_range.
  replace (q + 1 - 0) with (Z.of_nat (S (Z.to_nat q)))
    by (rewrite Nat2Z.inj_succ, Z2Nat.id; lia).
  rewrite seqZ_S, map_app. cbn [map]. rewrite last_snoc.
  f_equal. unfold axis_start. rewrite Z2Nat.id by lia. lia.
Qed.

Lemma axis_starts_in (extent patch stride n xs : Z) :
  In xs (map (axis_start extent patch stride) (py_range 0 n)) <->
  exists x, 0 <= x < n /\ xs = axis_start extent patch stride x.
Proof.
  rewrite in_map_iff. unfold py_range. split.
  - intros (x & <- & Hin). exists x. split; [|reflexivity].
    apply list_elem_of_In, elem_of_seqZ in Hin. lia.
  - intros (x & Hx & ->). exists x. split; [reflexivity|].
    apply list_elem_of_In, elem_of_seqZ. lia.
Qed.

(** Every index of an axis lies in a patch placed at one of the offsets,
    provided the stride does not exceed the patch extent. *)
Lemma axis_covered (extent patch stride q i : Z) :
  0 < stride <= patch -> patch <= extent ->
  stride * (q - 1) < extent - patch <= stride * q ->
  0 <= i < extent ->
  exists xs, In xs (map (axis_start extent patch stride) (py_range 0 (q + 1)))
             /\ in_slice xs (xs + patch) i = true.
Proof.
  intros Hs Hp Hq Hi.
  assert (0 <= q) by nia.
  destruct (Z_lt_le_dec i (extent - patch)) as [Hlt|Hge].
  - exists (axis_start extent patch stride (i / stride)).
    pose proof (Z.div_mod i stride ltac:(lia)) as Hdm.
    pose proof (Z.mod_pos_bound i stride ltac:(lia)) as Hm.
    assert (0 <= i / stride) by (apply Z.div_pos; lia).
    split.
    + apply axis_starts_in. exists (i / stride). split; [|reflexivity]. nia.
    + unfold in_slice, axis_start.
      apply andb_true_iff. split; [apply Z.leb_le|apply Z.ltb_lt]; lia.
  - exists (extent - patch). split.
    + apply axis_starts_in. exists q. split; [lia|].
      unfold axis_start. lia.
    + unfold in_slice. apply andb_true_iff.
      split; [apply Z.leb_le|apply Z.ltb_lt]; lia.
Qed.

(** *** The loops as one pass over the offset triples *)

Lemma fold_left_flat_map {A B C} (f : A -> C -> A) (g : B -> list C)
    (l : list B) (a : A) :
  fold_left f (flat_map g l) a = fold_left (fun a x => fold_left f (g x) a) l a.
Proof.
  revert a. induction l as [|x l IH]; intros a; cbn; [reflexivity|].
  rewrite fold_left_app. apply IH.
Qed.

Lemma fold_left_map_arg {A B C} (f : A -> C -> A) (g : B -> C)
    (l : list B) (a : A) :
  fold_left f (map g l) a = fold_left (fun a x => f a (g x)) l a.
Proof.
  revert a. induction l as [|x l IH]; intros a; cbn; [reflexivity|apply IH].
Qed.

Lemma fold_left_pointwise {A B} (f g : A -> B -> A) (l : list B) (a : A) :
  (forall a x, f a x = g a x) -> fold_left f l a = fold_left g l a.
Proof.
  intros Hfg. revert a. induction l as [|x l IH]; intros a; cbn; [reflexivity|].
  rewrite Hfg. apply IH.
Qed.

Lemma patch_loops_fold (image : ndarray3 F) (p : Z * Z * Z)
    (stride_xy stride_z sx sy sz : Z) (st : accum) :
  patch_loops image p stride_xy stride_z sx sy sz st =
  fold_left (place image p)
    (offset_triples
       (map (axis_start (shape3 image).1.1 p.1.1 stride_z) (py_range 0 sx))
       (map (axis_start (shape3 image).1.2 p.1.2 stride_xy) (py_range 0 sy))
       (map (axis_start (shape3 image).2 p.2 stride_xy) (py_range 0 sz)))
    st.
Proof.
  unfold patch_loops, offset_triples.
  destruct (shape3 image) as [[ww hh] dd]. cbn [fst snd].
  rewrite fold_left_flat_map, fold_left_map_arg.
  apply fold_left_pointwise. intros a x.
  rewrite fold_left_flat_map, fold_left_map_arg.
  apply fold_left_pointwise. intros b y.
  rewrite !fold_left_map_arg. reflexivity.
Qed.

Lemma in_offset_triples (xs ys zs : list Z) (x y z : Z) :
  In (x, y, z) (offset_triples xs ys zs) <-> In x xs /\ In y ys /\ In z zs.
Proof.
  unfold offset_triples. rewrite in_flat_map. split.
  - intros (x' & Hx & Hin). apply in_flat_map in Hin as (y' & Hy & Hin).
    apply in_map_iff in Hin as (z' & Heq & Hz). inversion Heq; subst. auto.
  - intros (Hx & Hy & Hz). exists x. split; [assumption|].
    apply in_flat_map. exists y. split; [assumption|].
    apply in_map_iff. exists z. auto.
Qed.

(** *** Visit counts and untouched scores *)

Lemma place_shapes (image : ndarray3 F) (p : Z * Z * Z)
    (starts : list (Z * Z * Z)) (st : accum) :
  shape4 (fold_left (place image p) starts st).1 = shape4 st.1 /\
  shape3 (fold_left (place image p) starts st).2 = shape3 st.2.
Proof.
  revert st. induction starts as [|s starts IH]; intros [sm cnt];
    [split; reflexivity|].
  cbn [fold_left].
  destruct (IH (place image p (sm, cnt) s)) as [-> ->].
  split; reflexivity.
Qed.

Lemma visits_nonneg (p : Z * Z * Z) (starts : list (Z * Z * Z)) (i j k : Z) :
  0 <= visits p starts i j k.
Proof. unfold visits. lia. Qed.

Lemma visits_cons (p : Z * Z * Z) (s : Z * Z * Z)
    (starts : list (Z * Z * Z)) (i j k : Z) :
  visits p (s :: starts) i j k =
  (if in_box s.1.1 s.1.2 s.2 p i j k then 1 else 0) + visits p starts i j k.
Proof.
  unfold visits. cbn [List.filter].
  destruct (in_box s.1.1 s.1.2 s.2 p i j k); cbn [length]; lia.
Qed.

Lemma cnt_after_loops (image : ndarray3 F) (p : Z * Z * Z)
    (starts : list (Z * Z * Z)) (st : accum) (i j k : Z) :
  at3 (fold_left (place image p) starts st).2 i j k =
  at3 st.2 i j k + visits p starts i j k.
Proof.
  revert st. induction starts as [|s starts IH]; intros [sm cnt].
  - cbn. unfold visits. cbn. lia.
  - cbn [fold_left]. rewrite IH, visits_cons. unfold place, add_patch. cbn.
    destruct (in_box s.1.1 s.1.2 s.2 p i j k); lia.
Qed.

Lemma score_unvisited (image : ndarray3 F) (p : Z * Z * Z)
    (starts : list (Z * Z * Z)) (st : accum) (c i j k : Z) :
  visits p starts i j k = 0 ->
  at4 (fold_left (place image p) starts st).1 c i j k = at4 st.1 c i j k.
Proof.
  revert st. induction starts as [|s starts IH]; intros [sm cnt] Hv;
    [reflexivity|].
  rewrite visits_cons in Hv. pose proof (visits_nonneg p starts i j k).
  cbn [fold_left]. rewrite IH by (destruct (in_box _ _ _ p i j k); lia).
  unfold place, add_patch. cbn.
  destruct (in_box s.1.1 s.1.2 s.2 p i j k); [lia|reflexivity].
Qed.

Lemma visits_covered (p : Z * Z * Z) (starts : list (Z * Z * Z))
    (s : Z * Z * Z) (i j k : Z) :
  In s starts -> in_box s.1.1 s.1.2 s.2 p i j k = true ->
  1 <= visits p starts i j k.
Proof.
  induction starts as [|s' starts IH]; intros Hin Hbox; [destruct Hin|].
  rewrite visits_cons. pose proof (visits_nonneg p starts i j k).
  destruct Hin as [->|Hin].
  - rewrite Hbox. lia.
  - specialize (IH Hin Hbox).
    destruct (in_box s'.1.1 s'.1.2 s'.2 p i j k); lia.
Qed.

(** *** The tiling as a whole *)

Lemma run_tiling_unfold (image : ndarray3 F) (stride_xy stride_z : Z)
    (p : Z * Z * Z) (num_classes : Z) :
  run_tiling image stride_xy stride_z p num_classes =
  (xs ← axis_starts (shape3 image).1.1 p.1.1 stride_z;
   ys ← axis_starts (shape3 image).1.2 p.1.2 stride_xy;
   zs ← axis_starts (shape3 image).2 p.2 stride_xy;
   if num_classes <? 0 then Raise ValueError
   else Ok (fold_left (place image p) (offset_triples xs ys zs)
              (zero_accum num_classes (shape3 image)))).
Proof.
  unfold run_tiling, axis_starts.
  destruct (shape3 image) as [[ww hh] dd] eqn:Hshape. cbn [fst snd].
  destruct (axis_count ww p.1.1 stride_z) as [sx|e]; [|reflexivity].
  destruct (axis_count hh p.1.2 stride_xy) as [sy|e]; [|reflexivity].
  destruct (axis_count dd p.2 stride_xy) as [sz|e]; [|reflexivity].
  cbn. destruct (num_classes <? 0); [reflexivity|].
  rewrite patch_loops_fold, Hshape. reflexivity.
Qed.

Lemma pad_image_shape (image : ndarray3 F) (p : Z * Z * Z) :
  shape3 (pad_image image p).1.1 =
  (Z.max (shape3 image).1.1 p.1.1, Z.max (shape3 image).1.2 p.1.2,
   Z.max (shape3 image).2 p.2).
Proof.
  unfold pad_image, np_pad, pad_of.
  destruct (shape3 image) as [[w h] d] eqn:Hshape. cbn [fst snd].
  destruct (Z.ltb_spec w p.1.1), (Z.ltb_spec h p.1.2), (Z.ltb_spec d p.2);
    cbn [orb fst snd shape3]; rewrite ?Hshape, ?Z.div_0_l by lia;
    rewrite !pair_equal_spec; lia.
Qed.

Lemma argmax_from_range (vs : list F) (best : Z) (bv : F) (idx : Z) :
  0 <= best < idx ->
  0 <= argmax_from best bv idx vs < idx + Z.of_nat (length vs).
Proof.
  revert best bv idx. induction vs as [|v vs IH]; intros best bv idx Hb.
  - cbn. lia.
  - cbn [argmax_from length]. destruct (fgt v bv).
    + specialize (IH idx v (idx + 1) ltac:(lia)). lia.
    + specialize (IH best bv (idx + 1) ltac:(lia)). lia.
Qed.

Lemma np_argmax_range (vs : list F) :
  vs <> [] -> 0 <= np_argmax vs < Z.of_nat (length vs).
Proof.
  destruct vs as [|v vs]; [congruence|]. intros _. cbn [np_argmax length].
  pose proof (argmax_from_range vs 0 v 1 ltac:(lia)). lia.
Qed.

Lemma argmax_axis0_range (score_map : ndarray4 F) (i j k : Z) :
  0 < (shape4 score_map).1.1.1 ->
  0 <= at3 (argmax_axis0 score_map) i j k < (shape4 score_map).1.1.1.
Proof.
  unfold argmax_axis0. destruct (shape4 score_map) as [[[c n0] n1] n2].
  cbn [fst snd at3]. intros Hc.
  pose proof (np_argmax_range
                (map (fun c0 => at4 score_map c0 i j k) (py_range 0 c))) as Hr.
  assert (Hlen : length (py_range 0 c) = Z.to_nat c).
  { unfold py_range. rewrite length_seqZ. f_equal. lia. }
  rewrite length_map, Hlen, Z2Nat.id in Hr by lia.
  apply Hr. intros Hnil. apply (f_equal (@length F)) in Hnil.
  rewrite length_map, Hlen in Hnil. cbn in Hnil. lia.
Qed.

Lemma slice_len_crop (left extent right : Z) :
  0 <= left -> 0 <= extent -> 0 <= right ->
  slice_len (left + extent + right) left (left + extent) = extent.
Proof. unfold slice_len. lia. Qed.

Lemma axis_tiled_pos (extent patch stride : Z) :
  0 < stride -> patch <= extent ->
  exists q, is_ceil q (extent - patch) stride /\ 0 <= q /\
    axis_tiled extent patch stride
      (map (axis_start extent patch stride) (py_range 0 (q + 1))).
Proof.
  intros Hs Hp.
  destruct (axis_starts_pos extent patch stride Hs Hp)
    as (q & Hceil & Hq & _ & Hstarts).
  exists q. split; [exact Hceil|]. split; [exact Hq|].
  exists q. split; [exact Hceil|]. split; [exact Hstarts|].
  split; [apply axis_starts_length; exact Hq|].
  apply axis_starts_last; [exact Hq|apply Hceil].
Qed.

(** C1, as amended.  For every volume shape and patch shape and for positive
    strides (stride_z on the first axis, stride_xy on the other two) the
    tiling of the padded volume visits, on each axis,
    ceil((padded_extent - patch_extent) / stride) + 1 offsets, the last of
    which is padded_extent - patch_extent; and when no stride exceeds the
    patch extent of its axis, every voxel of the padded volume ends with a
    visit count of at least one.  (The class count is not negative:
    [np.zeros] raises otherwise.) *)
Theorem tiling_covers_when_stride_fits (image : ndarray3 F)
    (stride_xy stride_z : Z) (p : Z * Z * Z) (num_classes : Z) :
  valid_shape (shape3 image) -> valid_shape p ->
  0 < stride_z -> 0 < stride_xy -> 0 <= num_classes ->
  let padded := (pad_image image p).1.1 in
  exists xs ys zs acc,
    axis_tiled (shape3 padded).1.1 p.1.1 stride_z xs /\
    axis_tiled (shape3 padded).1.2 p.1.2 stride_xy ys /\
    axis_tiled (shape3 padded).2 p.2 stride_xy zs /\
    run_tiling padded stride_xy stride_z p num_classes = Ok acc /\
    acc = fold_left (place padded p) (offset_triples xs ys zs)
            (zero_accum num_classes (shape3 padded)) /\
    (stride_z <= p.1.1 -> stride_xy <= p.1.2 -> stride_xy <= p.2 ->
     forall i j k, in_shape3 (shape3 padded) i j k -> 1 <= at3 acc.2 i j k).
Proof.
  intros _ _ Hz Hxy Hnc padded.
  pose proof (pad_image_shape image p) as Hshape. fold padded in Hshape.
  destruct (shape3 padded) as [[ww hh] dd] eqn:Hpad.
  injection Hshape as Hww Hhh Hdd. cbn [fst snd].
  destruct (axis_tiled_pos ww p.1.1 stride_z) as (qx & Hcx & Hqx & Htx); [lia..|].
  destruct (axis_tiled_pos hh p.1.2 stride_xy) as (qy & Hcy & Hqy & Hty); [lia..|].
  destruct (axis_tiled_pos dd p.2 stride_xy) as (qz & Hcz & Hqz & Htz); [lia..|].
  eexists _, _, _, _. split; [exact Htx|]. split; [exact Hty|].
  split; [exact Htz|].
  rewrite run_tiling_unfold, Hpad. cbn [fst snd].
  destruct Htx as (_ & _ & -> & _), Hty as (_ & _ & -> & _),
           Htz as (_ & _ & -> & _). cbn.
  destruct (Z.ltb_spec num_classes 0); [lia|].
  split; [reflexivity|]. split; [reflexivity|].
  intros Hfx Hfy Hfz i j k (Hi & Hj & Hk). cbn [fst snd] in Hi, Hj, Hk.
  rewrite cnt_after_loops. cbn [snd zero_accum at3].
  destruct (axis_covered ww p.1.1 stride_z qx i) as (xs & Hxs & Hbx);
    [lia|lia|exact Hcx|exact Hi|].
  destruct (axis_covered hh p.1.2 stride_xy qy j) as (ys & Hys & Hby);
    [lia|lia|exact Hcy|exact Hj|].
  destruct (axis_covered dd p.2 stride_xy qz k) as (zs & Hzs & Hbz);
    [lia|lia|exact Hcz|exact Hk|].
  pose proof (visits_covered p _ (xs, ys, zs) i j k
                (proj2 (in_offset_triples _ _ _ xs ys zs)
                       (conj Hxs (conj Hys Hzs)))) as Hv.
  cbn [fst snd] in Hv. unfold in_box in Hv. rewrite Hbx, Hby, Hbz in Hv.
  specialize (Hv eq_refl). lia.
Qed.

(** C10.  The tiling is one pass over the offset triples whose first
    components step with stride_z and whose second and third components
    step with stride_xy: the offsets of an axis are
    min(stride * x, extent - patch) for x below the count of that axis, so
    stride_xy never enters the first axis and stride_z never enters the
    other two. *)
Theorem strides_assigned_per_axis (image : ndarray3 F)
    (stride_xy stride_z : Z) (p : Z * Z * Z) (num_classes : Z) :
  run_tiling image stride_xy stride_z p num_classes =
    (xs ← axis_starts (shape3 image).1.1 p.1.1 stride_z;
     ys ← axis_starts (shape3 image).1.2 p.1.2 stride_xy;
     zs ← axis_starts (shape3 image).2 p.2 stride_xy;
     if num_classes <? 0 then Raise ValueError
     else Ok (fold_left (place image p) (offset_triples xs ys zs)
                (zero_accum num_classes (shape3 image))))
  /\ (forall extent patch stride,
        axis_starts extent patch stride =
        (q ← ceil_div (extent - patch) stride;
         Ok (map (fun x => Z.min (stride * x) (extent - patch))
               (py_range 0 (q + 1)))))
  /\ (forall xs ys zs x y z,
        In (x, y, z) (offset_triples xs ys zs) <->
        In x xs /\ In y ys /\ In z zs).
Proof.
  split; [apply run_tiling_unfold|]. split.
  - intros extent patch stride. unfold axis_starts, axis_count.
    destruct (ceil_div (extent - patch) stride); reflexivity.
  - intros. apply in_offset_triples.
Qed.

(** *** Normalisation, arg-max and crop *)

Lemma argmax_classes_tiled (image : ndarray3 F) (p : Z * Z * Z)
    (starts : list (Z * Z * Z)) (num_classes : Z) :
  let acc := fold_left (place image p) starts
               (zero_accum num_classes (shape3 image)) in
  argmax_classes (normalize acc.1 acc.2) =
  if num_classes =? 0 then Raise ValueError
  else Ok (argmax_axis0 (normalize acc.1 acc.2)).
Proof.
  intros acc. unfold argmax_classes. cbn [normalize shape4].
  unfold acc. rewrite (proj1 (place_shapes image p starts _)).
  reflexivity.
Qed.

Lemma run_tiling_returns (image : ndarray3 F) (stride_xy stride_z : Z)
    (p : Z * Z * Z) (num_classes : Z) :
  stride_xy <> 0 -> stride_z <> 0 -> 0 <= num_classes ->
  exists starts,
    run_tiling image stride_xy stride_z p num_classes =
    Ok (fold_left (place image p) starts
          (zero_accum num_classes (shape3 image))).
Proof.
  intros Hxy Hz Hnc. rewrite run_tiling_unfold.
  rewrite !axis_starts_nonzero by assumption. cbn.
  destruct (Z.ltb_spec num_classes 0); [lia|]. eexists. reflexivity.
Qed.

Lemma test_single_case_unfold (image : ndarray3 F) (stride_xy stride_z : Z)
    (p : Z * Z * Z) (num_classes : Z) :
  test_single_case image stride_xy stride_z p num_classes =
  (acc ← run_tiling (pad_image image p).1.1 stride_xy stride_z p num_classes;
   let score_map := normalize acc.1 acc.2 in
   label_map ← argmax_classes score_map;
   let '(wl, hl, dl) := (pad_image image p).2 in
   let '(w, h, d) := shape3 image in
   if (pad_image image p).1.2
   then Ok (slice3 label_map wl (wl + w) hl (hl + h) dl (dl + d),
            slice4 score_map wl (wl + w) hl (hl + h) dl (dl + d))
   else Ok (label_map, score_map)).
Proof.
  unfold test_single_case.
  destruct (shape3 image) as [[w h] d].
  destruct (pad_image image p) as [[padded add_pad] [[wl hl] dl]].
  cbn [fst snd].
  destruct (run_tiling padded stride_xy stride_z p num_classes) as [[sm cnt]|e];
    reflexivity.
Qed.

Lemma pad_image_left_pads (image : ndarray3 F) (p : Z * Z * Z) :
  (pad_image image p).2 =
  (pad_of (shape3 image).1.1 p.1.1 / 2, pad_of (shape3 image).1.2 p.1.2 / 2,
   pad_of (shape3 image).2 p.2 / 2).
Proof.
  unfold pad_image. destruct (shape3 image) as [[w h] d]. reflexivity.
Qed.

Lemma pad_image_padded (image : ndarray3 F) (p : Z * Z * Z) :
  (pad_image image p).1.2 = true ->
  shape3 (pad_image image p).1.1 =
  (pad_of (shape3 image).1.1 p.1.1 / 2 + (shape3 image).1.1
   + (pad_of (shape3 image).1.1 p.1.1 - pad_of (shape3 image).1.1 p.1.1 / 2),
   pad_of (shape3 image).1.2 p.1.2 / 2 + (shape3 image).1.2
   + (pad_of (shape3 image).1.2 p.1.2 - pad_of (shape3 image).1.2 p.1.2 / 2),
   pad_of (shape3 image).2 p.2 / 2 + (shape3 image).2
   + (pad_of (shape3 image).2 p.2 - pad_of (shape3 image).2 p.2 / 2)).
Proof.
  unfold pad_image, np_pad. destruct (shape3 image) as [[w h] d] eqn:Hshape.
  cbn [fst snd]. intros ->. cbn [shape3]. reflexivity.
Qed.

Lemma pad_image_unpadded (image : ndarray3 F) (p : Z * Z * Z) :
  (pad_image image p).1.2 = false -> (pad_image image p).1.1 = image.
Proof.
  unfold pad_image. destruct (shape3 image) as [[w h] d].
  cbn [fst snd]. intros ->. reflexivity.
Qed.

Lemma pad_of_split (n p : Z) :
  0 <= pad_of n p / 2 /\ 0 <= pad_of n p - pad_of n p / 2.
Proof.
  assert (0 <= pad_of n p) by (unfold pad_of; destruct (Z.ltb_spec n p); lia).
  pose proof (Z.div_mod (pad_of n p) 2 ltac:(lia)).
  pose proof (Z.mod_pos_bound (pad_of n p) 2 ltac:(lia)). lia.
Qed.

Lemma test_single_case_returns (image : ndarray3 F) (stride_xy stride_z : Z)
    (p : Z * Z * Z) (num_classes : Z) :
  stride_xy <> 0 -> stride_z <> 0 -> 0 < num_classes ->
  exists label_map score_map,
    test_single_case image stride_xy stride_z p num_classes
    = Ok (label_map, score_map).
Proof.
  intros Hxy Hz Hnc. rewrite test_single_case_unfold.
  destruct (run_tiling_returns (pad_image image p).1.1 stride_xy stride_z p
              num_classes Hxy Hz (Z.lt_le_incl _ _ Hnc)) as (starts & ->).
  cbn [mbind result_bind]. rewrite argmax_classes_tiled.
  destruct (Z.eqb_spec num_classes 0); [lia|]. cbn [mbind result_bind].
  destruct (pad_image image p).2 as [[wl hl] dl].
  destruct (shape3 image) as [[w h] d].
  destruct (pad_image image p).1.2; eexists _, _; reflexivity.
Qed.

(** C8.  For every volume, also one smaller than the patch along some axis,
    inference returns a label map of exactly the shape of the input volume
    whose entries all lie in [0, num_classes).  The strides are non-zero and
    there is at least one class: the function raises otherwise. *)
Theorem pad_then_crop_restores_shape (image : ndarray3 F)
    (stride_xy stride_z : Z) (patch_size : Z * Z * Z) (num_classes : Z) :
  valid_shape (shape3 image) -> valid_shape patch_size ->
  stride_xy <> 0 -> stride_z <> 0 -> 0 < num_classes ->
  exists label_map score_map,
    test_single_case image stride_xy stride_z patch_size num_classes
      = Ok (label_map, score_map) /\
    shape3 label_map = shape3 image /\
    shape4 score_map =
      (num_classes, (shape3 image).1.1, (shape3 image).1.2, (shape3 image).2) /\
    forall i j k, in_shape3 (shape3 image) i j k ->
                  0 <= at3 label_map i j k < num_classes.
Proof.
  intros (Hw & Hh & Hd) _ Hxy Hz Hnc. set (p := patch_size).
  rewrite test_single_case_unfold.
  destruct (run_tiling_returns (pad_image image p).1.1 stride_xy stride_z p
              num_classes Hxy Hz (Z.lt_le_incl _ _ Hnc)) as (starts & ->).
  cbn [mbind result_bind]. rewrite argmax_classes_tiled.
  destruct (Z.eqb_spec num_classes 0); [lia|]. cbn [mbind result_bind].
  set (acc := fold_left _ starts _).
  destruct (place_shapes (pad_image image p).1.1 p starts
              (zero_accum num_classes (shape3 (pad_image image p).1.1)))
    as [Hs4 Hs3].
  fold acc in Hs4, Hs3. cbn [zero_accum fst snd shape4 shape3] in Hs4, Hs3.
  assert (Hrange : forall i j k,
             0 <= at3 (argmax_axis0 (normalize acc.1 acc.2)) i j k
             < num_classes).
  { intros i j k.
    pose proof (argmax_axis0_range (normalize acc.1 acc.2) i j k) as Hr.
    cbn [normalize shape4] in Hr. rewrite Hs4 in Hr. cbn [fst] in Hr.
    apply Hr. exact Hnc. }
  rewrite pad_image_left_pads.
  destruct (pad_image image p).1.2 eqn:Hpad.
  - rewrite (pad_image_padded image p Hpad) in Hs4.
    destruct (shape3 image) as [[w h] d] eqn:Hshape. cbn [fst snd] in *.
    destruct (pad_of_split w p.1.1), (pad_of_split h p.1.2),
             (pad_of_split d p.2).
    eexists _, _. split; [reflexivity|].
    unfold slice3, slice4, argmax_axis0. cbn [normalize shape4].
    rewrite Hs4. cbn [shape3 shape4 at3].
    rewrite !slice_len_crop by assumption.
    split; [reflexivity|]. split; [reflexivity|].
    intros i j k _. specialize (Hrange (pad_of w p.1.1 / 2 + i)
      (pad_of h p.1.2 / 2 + j) (pad_of d p.2 / 2 + k)).
    unfold argmax_axis0 in Hrange. cbn [normalize shape4] in Hrange.
    rewrite Hs4 in Hrange. exact Hrange.
  - rewrite (pad_image_unpadded image p Hpad) in Hs4.
    destruct (shape3 image) as [[w h] d] eqn:Hshape. cbn [fst snd] in *.
    eexists _, _. split; [reflexivity|].
    split.
    { unfold argmax_axis0. cbn [normalize shape4]. rewrite Hs4. reflexivity. }
    split; [exact Hs4|]. intros i j k _. apply Hrange.
Qed.

Lemma pad_image_no_pad (image : ndarray3 F) (p : Z * Z * Z) :
  (pad_image image p).1.2 = false -> (pad_image image p).2 = (0, 0, 0).
Proof.
  rewrite pad_image_left_pads. unfold pad_image, pad_of.
  destruct (shape3 image) as [[w h] d]. cbn [fst snd].
  destruct (w <? p.1.1), (h <? p.1.2), (d <? p.2); cbn [orb];
    try discriminate.
  reflexivity.
Qed.

Lemma test_single_case_scores (image : ndarray3 F) (stride_xy stride_z : Z)
    (p : Z * Z * Z) (num_classes : Z) (acc : accum) :
  run_tiling (pad_image image p).1.1 stride_xy stride_z p num_classes = Ok acc ->
  (shape4 acc.1).1.1.1 <> 0 ->
  exists label_map score_map,
    test_single_case image stride_xy stride_z p num_classes
      = Ok (label_map, score_map) /\
    forall c i j k,
      at4 score_map c i j k =
      at4 (normalize acc.1 acc.2) c
        ((pad_image image p).2.1.1 + i) ((pad_image image p).2.1.2 + j)
        ((pad_image image p).2.2 + k).
Proof.
  intros Hrun Hclasses. rewrite test_single_case_unfold, Hrun.
  cbn [mbind result_bind]. unfold argmax_classes at 1.
  cbn [normalize shape4].
  destruct (Z.eqb_spec (shape4 acc.1).1.1.1 0); [contradiction|].
  cbn [mbind result_bind].
  destruct (pad_image image p).1.2 eqn:Hpad.
  - destruct (pad_image image p).2 as [[wl hl] dl].
    destruct (shape3 image) as [[w h] d].
    eexists _, _. split; [reflexivity|].
    intros c i j k. unfold slice4. cbn [normalize shape4].
    destruct (shape4 acc.1) as [[[nc n0] n1] n2]. reflexivity.
  - rewrite (pad_image_no_pad image p Hpad).
    destruct (shape3 image) as [[w h] d].
    eexists _, _. split; [reflexivity|].
    intros c i j k. cbn [fst snd]. rewrite !Z.add_0_l. reflexivity.
Qed.

(** C2, as amended.  The normalisation step has no coverage check and raises
    nothing: for non-zero strides and at least one class, inference returns a
    label map and a score map whatever the visit counts are; every returned
    score is the accumulated score divided by the visit count of its voxel,
    and at a voxel whose visit count is zero that is the quotient of the zero
    score by the zero count. *)
Theorem normalization_has_no_coverage_check (image : ndarray3 F)
    (stride_xy stride_z : Z) (p : Z * Z * Z) (num_classes : Z) :
  valid_shape (shape3 image) -> valid_shape p ->
  stride_xy <> 0 -> stride_z <> 0 -> 0 < num_classes ->
  exists score_sum cnt label_map score_map,
    run_tiling (pad_image image p).1.1 stride_xy stride_z p num_classes
      = Ok (score_sum, cnt) /\
    test_single_case image stride_xy stride_z p num_classes
      = Ok (label_map, score_map) /\
    (forall c i j k,
       at4 score_map c i j k =
       fquot (at4 score_sum c ((pad_image image p).2.1.1 + i)
                ((pad_image image p).2.1.2 + j) ((pad_image image p).2.2 + k))
             (at3 cnt ((pad_image image p).2.1.1 + i)
                ((pad_image image p).2.1.2 + j) ((pad_image image p).2.2 + k)))
    /\
    (forall c i j k, at3 cnt i j k = 0 ->
                     at4 (normalize score_sum cnt) c i j k = fquot fzero 0).
Proof.
  intros _ _ Hxy Hz Hnc.
  destruct (run_tiling_returns (pad_image image p).1.1 stride_xy stride_z p
              num_classes Hxy Hz (Z.lt_le_incl _ _ Hnc)) as (starts & Hrun).
  destruct (test_single_case_scores image stride_xy stride_z p num_classes _
              Hrun) as (lm & sm & Hret & Hscores).
  { rewrite (proj1 (place_shapes _ p starts _)). cbn. lia. }
  set (acc := fold_left _ starts _) in *.
  exists acc.1, acc.2, lm, sm.
  split; [rewrite Hrun; destruct acc; reflexivity|]. split; [exact Hret|].
  split; [intros c i j k; rewrite Hscores; reflexivity|].
  intros c i j k Hcnt. cbn [normalize at4]. rewrite Hcnt. f_equal.
  subst acc. rewrite cnt_after_loops in Hcnt.
  cbn [zero_accum snd at3] in Hcnt.
  rewrite score_unvisited by lia. reflexivity.
Qed.

End Inference.

Lemma fdiv_zero_by_zero : fdiv_count (Fin 0) 0 = NaN.
Proof.
  unfold fdiv_count, fdiv, Reqb. cbn [IZR].
  destruct (Req_dec_T 0 0) as [_|Hne]; [reflexivity|contradiction].
Qed.

(** C1, counterexample.  Volume (6, 2, 2), patch (2, 2, 2), stride_z = 3 and
    stride_xy = 1: no padding is needed, the first axis gets the three
    offsets 0, 3 and 4, and the voxel (2, 0, 0) of the volume is in no
    patch: its visit count stays zero. *)
Lemma stride_wider_than_patch_leaves_gap :
  exists acc,
    axis_starts 6 2 3 = Ok [0; 3; 4] /\
    run_tiling (env := float_env)
      (pad_image (env := float_env) volume_6_2_2 (2, 2, 2)).1.1 1 3 (2, 2, 2) 2
      = Ok acc /\
    in_shape3
      (shape3 (pad_image (env := float_env) volume_6_2_2 (2, 2, 2)).1.1) 2 0 0 /\
    at3 acc.2 2 0 0 = 0.
Proof.
  eexists. split; [reflexivity|]. split; [reflexivity|]. split.
  - vm_compute. intuition congruence.
  - vm_compute. reflexivity.
Qed.

(** C1, as amended, at volume (6, 3, 1) with patch (3, 2, 2), stride_z = 2
    and stride_xy = 1: the third axis is padded from 1 to 2, the first axis
    is stepped and its last offset clamped from 4 to 3, the second axis is
    stepped, and the six patches cover the padded volume. *)
Lemma tiling_covers_when_stride_fits_witness :
  exists acc,
    shape3 padded_6_3_2 = (6, 3, 2) /\
    axis_tiled 6 3 2 [0; 2; 3] /\
    axis_tiled 3 2 1 [0; 1] /\
    axis_tiled 2 2 1 [0] /\
    run_tiling (env := float_env) padded_6_3_2 1 2 (3, 2, 2) 2 = Ok acc /\
    acc = fold_left (place (env := float_env) padded_6_3_2 (3, 2, 2))
            (offset_triples [0; 2; 3] [0; 1] [0])
            (zero_accum (env := float_env) 2 (6, 3, 2)) /\
    forall i j k, in_shape3 (6, 3, 2) i j k -> 1 <= at3 acc.2 i j k.
Proof.
  destruct (tiling_covers_when_stride_fits (env := float_env)
              volume_6_3_1 1 2 (3, 2, 2) 2)
    as (xs & ys & zs & acc & Hx & Hy & Hz & Hrun & Hacc & Hcover);
    [unfold valid_shape; cbn; lia..|].
  assert (Hxs : xs = [0; 2; 3]).
  { destruct Hx as (q & _ & Heq & _). vm_compute in Heq. congruence. }
  assert (Hys : ys = [0; 1]).
  { destruct Hy as (q & _ & Heq & _). vm_compute in Heq. congruence. }
  assert (Hzs : zs = [0]).
  { destruct Hz as (q & _ & Heq & _). vm_compute in Heq. congruence. }
  subst xs ys zs. exists acc.
  split; [reflexivity|].
  split; [exact Hx|]. split; [exact Hy|]. split; [exact Hz|].
  split; [exact Hrun|]. split; [exact Hacc|].
  apply Hcover; cbn; lia.
Defined.

(** C8 at the same run: the volume is smaller than the patch along the first
    axis. *)
Lemma pad_then_crop_restores_shape_witness :
  exists label_map score_map,
    test_single_case (env := float_env)
      volume_3_2_2 1 2 (4, 2, 2) 2 = Ok (label_map, score_map) /\
    shape3 label_map = shape3 volume_3_2_2 /\
    shape4 score_map =
      (2, (shape3 volume_3_2_2).1.1, (shape3 volume_3_2_2).1.2,
       (shape3 volume_3_2_2).2) /\
    forall i j k, in_shape3 (shape3 volume_3_2_2) i j k ->
                  0 <= at3 label_map i j k < 2.
Proof.
  apply (pad_then_crop_restores_shape (env := float_env)
           volume_3_2_2 1 2 (4, 2, 2) 2); unfold valid_shape; cbn; lia.
Defined.

(** C2, counterexample.  On the run of the counterexample to C1 the voxel
    (2, 0, 0) has visit count zero, and yet no exception is raised: inference
    returns a label map and a score map, where the scores of that voxel are
    NaN and its label is 0. *)
Lemma unvisited_voxel_yields_result_not_error :
  exists score_sum cnt label_map score_map,
    run_tiling (env := float_env)
      (pad_image (env := float_env) volume_6_2_2 (2, 2, 2)).1.1 1 3 (2, 2, 2) 2
      = Ok (score_sum, cnt) /\
    at3 cnt 2 0 0 = 0 /\
    test_single_case (env := float_env)
      volume_6_2_2 1 3 (2, 2, 2) 2 = Ok (label_map, score_map) /\
    at4 score_map 0 2 0 0 = NaN /\ at4 score_map 1 2 0 0 = NaN /\
    at3 label_map 2 0 0 = 0.
Proof.
  eexists _, _, _, _. split; [reflexivity|]. split; [vm_compute; reflexivity|].
  split; [reflexivity|].
  assert (Hscore : forall c,
    at4 (normalize (env := float_env)
           (patch_loops (env := float_env) volume_6_2_2 (2, 2, 2) 1 3
              3 1 1 (zero_accum (env := float_env) 2 (6, 2, 2))).1
           (patch_loops (env := float_env) volume_6_2_2 (2, 2, 2) 1 3
              3 1 1 (zero_accum (env := float_env) 2 (6, 2, 2))).2) c 2 0 0
    = NaN).
  { intros c. cbn [normalize at4]. rewrite patch_loops_fold.
    rewrite cnt_after_loops, score_unvisited by (vm_compute; reflexivity).
    replace (visits _ _ 2 0 0) with 0 by (vm_compute; reflexivity).
    cbn [zero_accum fst snd at3 at4]. apply fdiv_zero_by_zero. }
  split; [apply Hscore|]. split; [apply Hscore|].
  change (np_argmax (env := float_env)
            (map (fun c =>
               at4 (normalize (env := float_env)
                 (patch_loops (env := float_env) volume_6_2_2 (2, 2, 2)
                    1 3 3 1 1 (zero_accum (env := float_env) 2 (6, 2, 2))).1
                 (patch_loops (env := float_env) volume_6_2_2 (2, 2, 2)
                    1 3 3 1 1 (zero_accum (env := float_env) 2 (6, 2, 2))).2)
                 c 2 0 0) [0; 1]) = 0).
  cbn [map]. rewrite !Hscore. reflexivity.
Qed.

(** C2, as amended, at the run of its counterexample. *)
Lemma normalization_has_no_coverage_check_witness :
  exists score_sum cnt label_map score_map,
    run_tiling (env := float_env)
      (pad_image (env := float_env) volume_6_2_2 (2, 2, 2)).1.1 1 3 (2, 2, 2) 2
      = Ok (score_sum, cnt) /\
    test_single_case (env := float_env) volume_6_2_2 1 3 (2, 2, 2) 2
      = Ok (label_map, score_map) /\
    (forall c i j k,
       at4 score_map c i j k =
       fdiv_count
         (at4 score_sum c
            ((pad_image (env := float_env) volume_6_2_2 (2, 2, 2)).2.1.1 + i)
            ((pad_image (env := float_env) volume_6_2_2 (2, 2, 2)).2.1.2 + j)
            ((pad_image (env := float_env) volume_6_2_2 (2, 2, 2)).2.2 + k))
         (at3 cnt
            ((pad_image (env := float_env) volume_6_2_2 (2, 2, 2)).2.1.1 + i)
            ((pad_image (env := float_env) volume_6_2_2 (2, 2, 2)).2.1.2 + j)
            ((pad_image (env := float_env) volume_6_2_2 (2, 2, 2)).2.2 + k)))
    /\
    (forall c i j k, at3 cnt i j k = 0 ->
       at4 (normalize (env := float_env) score_sum cnt) c i j k
       = fdiv_count (Fin 0) 0).
Proof.
  apply (normalization_has_no_coverage_check (env := float_env)
           volume_6_2_2 1 3 (2, 2, 2) 2); unfold valid_shape; cbn; lia.
Defined.

(** *** Where the patches lie *)

Section Tiling.

Context {env : inference_env}.

Lemma ceil_count_neg_stride (a stride : Z) :
  0 <= a -> stride < 0 -> - (- a / stride) + 1 <= 1.
Proof.
  intros Ha Hs.
  assert (0 <= - a / stride); [|lia].
  replace stride with (- - stride) by lia. rewrite Z.div_opp_opp by lia.
  apply Z.div_pos; lia.
Qed.

Lemma axis_starts_bounds (extent patch stride : Z) (xs : list Z) :
  stride <> 0 -> patch <= extent ->
  axis_starts extent patch stride = Ok xs ->
  forall x, In x xs -> 0 <= x <= extent - patch.
Proof.
  intros Hs Hp H x Hx. rewrite axis_starts_nonzero in H by assumption.
  injection H as <-. apply axis_starts_in in Hx as (n & Hn & ->).
  unfold axis_start.
  assert (0 <= stride * n); [|lia].
  destruct (Z.lt_trichotomy stride 0) as [Hneg|[?|Hpos]]; [|lia|nia].
  pose proof (ceil_count_neg_stride (extent - patch) stride). nia.
Qed.

Lemma axis_start_increasing (extent patch stride q x y : Z) :
  0 < stride -> stride * (q - 1) < extent - patch ->
  0 <= x < y -> y <= q ->
  axis_start extent patch stride x < axis_start extent patch stride y.
Proof. intros Hs Hq Hx Hy. unfold axis_start. nia. Qed.

Lemma axis_starts_NoDup (extent patch stride : Z) (xs : list Z) :
  stride <> 0 -> patch <= extent ->
  axis_starts extent patch stride = Ok xs -> NoDup xs.
Proof.
  intros Hs Hp H. rewrite axis_starts_nonzero in H by assumption.
  injection H as <-.
  set (n := - (- (extent - patch) / stride) + 1).
  assert (Hinj : forall x y, 0 <= x < n -> 0 <= y < n ->
            axis_start extent patch stride x = axis_start extent patch stride y ->
            x = y).
  { destruct (Z.lt_trichotomy stride 0) as [Hneg|[?|Hpos]]; [|lia|].
    - pose proof (ceil_count_neg_stride (extent - patch) stride).
      intros x y Hx Hy _. lia.
    - destruct (ceil_div_pos (extent - patch) stride Hpos) as (q & Hq & Hlt & _).
      rewrite ceil_div_nonzero in Hq by assumption. injection Hq as Hq.
      intros x y Hx Hy Heq.
      destruct (Z.lt_trichotomy x y) as [Hxy|[?|Hxy]]; [|assumption|].
      + pose proof (axis_start_increasing extent patch stride q x y Hpos Hlt).
        lia.
      + pose proof (axis_start_increasing extent patch stride q y x Hpos Hlt).
        lia. }
  unfold py_range. apply NoDup_fmap_2_strong; [|apply NoDup_seqZ].
  intros x y Hx%elem_of_seqZ Hy%elem_of_seqZ. apply Hinj; lia.
Qed.

Lemma offset_triples_NoDup (xs ys zs : list Z) :
  NoDup xs -> NoDup ys -> NoDup zs -> NoDup (offset_triples xs ys zs).
Proof.
  intros Hxs Hys Hzs. unfold offset_triples.
  induction Hxs as [|x xs Hx _ IH]; cbn [flat_map]; [constructor|].
  apply NoDup_app. split; [|split; [|exact IH]].
  - clear Hx IH. induction Hys as [|y ys Hy _ IH]; cbn [flat_map]; [constructor|].
    apply NoDup_app. split; [|split; [|exact IH]].
    + apply NoDup_fmap_2; [|exact Hzs]. intros z z' [=]. assumption.
    + intros t Ht%list_elem_of_In%in_map_iff Ht'%list_elem_of_In%in_flat_map.
      destruct Ht as (z & <- & _). destruct Ht' as (y' & Hy' & Hin%in_map_iff).
      destruct Hin as (z' & [= <- _] & _). apply Hy, list_elem_of_In, Hy'.
  - intros t Ht%list_elem_of_In%in_flat_map Ht'%list_elem_of_In.
    destruct Ht as (y & _ & Hin%in_map_iff). destruct Hin as (z & <- & _).
    change (In (x, y, z) (offset_triples xs ys zs)) in Ht'.
    apply in_offset_triples in Ht' as (Hin & _).
    apply Hx, list_elem_of_In, Hin.
Qed.

Lemma padded_extent_fits (image : ndarray3 F) (p : Z * Z * Z) :
  p.1.1 <= (shape3 (pad_image image p).1.1).1.1 /\
  p.1.2 <= (shape3 (pad_image image p).1.1).1.2 /\
  p.2 <= (shape3 (pad_image image p).1.1).2.
Proof. rewrite pad_image_shape. cbn [fst snd]. lia. Qed.

(** X1.  For non-zero strides every patch the loops cut out of the padded
    volume lies wholly inside it: its offsets are not negative, offset plus
    patch extent does not pass the padded extent on any axis, and so the
    slice handed to the network has exactly the patch shape. *)
Theorem patches_lie_inside_padded_volume (image : ndarray3 F)
    (stride_xy stride_z : Z) (p : Z * Z * Z) :
  valid_shape p -> stride_xy <> 0 -> stride_z <> 0 ->
  let padded := (pad_image image p).1.1 in
  exists xs ys zs,
    axis_starts (shape3 padded).1.1 p.1.1 stride_z = Ok xs /\
    axis_starts (shape3 padded).1.2 p.1.2 stride_xy = Ok ys /\
    axis_starts (shape3 padded).2 p.2 stride_xy = Ok zs /\
    forall x y z, In (x, y, z) (offset_triples xs ys zs) ->
      (0 <= x /\ x + p.1.1 <= (shape3 padded).1.1) /\
      (0 <= y /\ y + p.1.2 <= (shape3 padded).1.2) /\
      (0 <= z /\ z + p.2 <= (shape3 padded).2) /\
      shape3 (slice3 padded x (x + p.1.1) y (y + p.1.2) z (z + p.2)) = p.
Proof.
  intros (Hp0 & Hp1 & Hp2) Hxy Hz padded.
  destruct (padded_extent_fits image p) as (Hf0 & Hf1 & Hf2). fold padded in Hf0, Hf1, Hf2.
  eexists _, _, _. split; [apply (axis_starts_nonzero _ _ _ Hz)|].
  split; [apply (axis_starts_nonzero _ _ _ Hxy)|].
  split; [apply (axis_starts_nonzero _ _ _ Hxy)|].
  intros x y z (Hx & Hy & Hz')%in_offset_triples.
  apply (axis_starts_bounds _ _ _ _ Hz Hf0 (axis_starts_nonzero _ _ _ Hz)) in Hx.
  apply (axis_starts_bounds _ _ _ _ Hxy Hf1 (axis_starts_nonzero _ _ _ Hxy)) in Hy.
  apply (axis_starts_bounds _ _ _ _ Hxy Hf2 (axis_starts_nonzero _ _ _ Hxy)) in Hz'.
  repeat split; try lia.
  unfold slice3. destruct (shape3 padded) as [[ww hh] dd]. cbn [fst snd] in *.
  cbn [shape3]. unfold slice_len. destruct p as [[p0 p1] p2]. cbn [fst snd] in *.
  rewrite !pair_equal_spec. lia.
Qed.

(** X2.  For non-zero strides the loops never place two patches at the same
    offsets: the offsets of each axis are pairwise different, and so are the
    offset triples, so the network is run once per patch position and a
    voxel's count is the number of different patches that hold it. *)
Theorem no_patch_evaluated_twice (image : ndarray3 F)
    (stride_xy stride_z : Z) (p : Z * Z * Z) :
  stride_xy <> 0 -> stride_z <> 0 ->
  let padded := (pad_image image p).1.1 in
  exists xs ys zs,
    axis_starts (shape3 padded).1.1 p.1.1 stride_z = Ok xs /\
    axis_starts (shape3 padded).1.2 p.1.2 stride_xy = Ok ys /\
    axis_starts (shape3 padded).2 p.2 stride_xy = Ok zs /\
    NoDup xs /\ NoDup ys /\ NoDup zs /\ NoDup (offset_triples xs ys zs).
Proof.
  intros Hxy Hz padded.
  destruct (padded_extent_fits image p) as (Hf0 & Hf1 & Hf2). fold padded in Hf0, Hf1, Hf2.
  pose proof (axis_starts_NoDup _ _ _ _ Hz Hf0 (axis_starts_nonzero _ _ _ Hz)) as H0.
  pose proof (axis_starts_NoDup _ _ _ _ Hxy Hf1 (axis_starts_nonzero _ _ _ Hxy)) as H1.
  pose proof (axis_starts_NoDup _ _ _ _ Hxy Hf2 (axis_starts_nonzero _ _ _ Hxy)) as H2.
  eexists _, _, _. split; [apply (axis_starts_nonzero _ _ _ Hz)|].
  split; [apply (axis_starts_nonzero _ _ _ Hxy)|].
  split; [apply (axis_starts_nonzero _ _ _ Hxy)|].
  split; [exact H0|]. split; [exact H1|]. split; [exact H2|].
  apply offset_triples_NoDup; assumption.
Qed.

End Tiling.

Section SinglePatch.

Context {env : inference_env}.

Lemma axis_starts_exact_fit (patch stride : Z) :
  stride <> 0 -> axis_starts patch patch stride = Ok [0].
Proof.
  intros Hs. rewrite axis_starts_nonzero by assumption.
  rewrite Z.sub_diag. cbn [Z.opp]. rewrite Z.div_0_l by assumption.
  change (py_range 0 (- 0 + 1)) with [0]. cbn [map]. unfold axis_start.
  rewrite Z.sub_diag, Z.mul_0_r. reflexivity.
Qed.

Lemma run_tiling_exact_fit (image : ndarray3 F) (stride_xy stride_z : Z)
    (p : Z * Z * Z) (num_classes : Z) :
  shape3 image = p -> stride_xy <> 0 -> stride_z <> 0 ->
  run_tiling image stride_xy stride_z p num_classes =
  if num_classes <? 0 then Raise ValueError
  else Ok (add_patch image p (zero_accum num_classes p) 0 0 0).
Proof.
  intros Hshape Hxy Hz. rewrite run_tiling_unfold, Hshape.
  rewrite !axis_starts_exact_fit by assumption. reflexivity.
Qed.

(** X3.  A volume that does not exceed the patch on any axis is padded to
    exactly the patch shape and handled with a single evaluation of the
    network, at offsets (0, 0, 0); the result of inference is then the same
    for all non-zero strides. *)
Theorem volume_within_patch_needs_one_evaluation (image : ndarray3 F)
    (stride_xy stride_z : Z) (p : Z * Z * Z) (num_classes : Z) :
  (shape3 image).1.1 <= p.1.1 -> (shape3 image).1.2 <= p.1.2 ->
  (shape3 image).2 <= p.2 ->
  stride_xy <> 0 -> stride_z <> 0 ->
  let padded := (pad_image image p).1.1 in
  shape3 padded = p /\
  run_tiling padded stride_xy stride_z p num_classes =
    (if num_classes <? 0 then Raise ValueError
     else Ok (add_patch padded p (zero_accum num_classes p) 0 0 0)) /\
  forall stride_xy' stride_z', stride_xy' <> 0 -> stride_z' <> 0 ->
    test_single_case image stride_xy' stride_z' p num_classes =
    test_single_case image stride_xy stride_z p num_classes.
Proof.
  intros H0 H1 H2 Hxy Hz padded.
  assert (Hshape : shape3 padded = p).
  { unfold padded. rewrite pad_image_shape. destruct p as [[p0 p1] p2].
    cbn [fst snd] in *. rewrite !pair_equal_spec. lia. }
  split; [exact Hshape|].
  split; [apply run_tiling_exact_fit; assumption|].
  intros sxy' sz' Hxy' Hz'. rewrite !test_single_case_unfold.
  fold padded. rewrite !run_tiling_exact_fit by assumption. reflexivity.
Qed.

(** X4.  The padding centres the volume: the padded extent of an axis is the
    larger of the volume's and the patch's extent, the left pad is the floor
    of half the difference and the right pad takes the odd voxel; the
    volume's voxels are found unchanged at the left pads, and every other
    voxel of the padded volume is zero. *)
Theorem padding_centres_volume (image : ndarray3 F) (p : Z * Z * Z) :
  let padded := (pad_image image p).1.1 in
  let pads := (pad_image image p).2 in
  shape3 padded =
    (Z.max (shape3 image).1.1 p.1.1, Z.max (shape3 image).1.2 p.1.2,
     Z.max (shape3 image).2 p.2) /\
  pads =
    ((Z.max (shape3 image).1.1 p.1.1 - (shape3 image).1.1) / 2,
     (Z.max (shape3 image).1.2 p.1.2 - (shape3 image).1.2) / 2,
     (Z.max (shape3 image).2 p.2 - (shape3 image).2) / 2) /\
  (forall i j k, in_shape3 (shape3 image) i j k ->
     at3 padded (pads.1.1 + i) (pads.1.2 + j) (pads.2 + k) = at3 image i j k) /\
  (forall i j k, in_shape3 (shape3 padded) i j k ->
     ~ in_shape3 (shape3 image) (i - pads.1.1) (j - pads.1.2) (k - pads.2) ->
     at3 padded i j k = fzero).
Proof.
  intros padded pads.
  split; [apply pad_image_shape|].
  assert (Hpads : pads =
    ((Z.max (shape3 image).1.1 p.1.1 - (shape3 image).1.1) / 2,
     (Z.max (shape3 image).1.2 p.1.2 - (shape3 image).1.2) / 2,
     (Z.max (shape3 image).2 p.2 - (shape3 image).2) / 2)).
  { unfold pads. rewrite pad_image_left_pads. unfold pad_of.
    destruct (Z.ltb_spec (shape3 image).1.1 p.1.1),
             (Z.ltb_spec (shape3 image).1.2 p.1.2),
             (Z.ltb_spec (shape3 image).2 p.2);
      rewrite !pair_equal_spec; repeat split; f_equal; lia. }
  split; [exact Hpads|].
  unfold padded, pads in *. clear padded pads.
  rewrite pad_image_left_pads in *.
  unfold pad_image in *.
  destruct (shape3 image) as [[w h] d] eqn:Hshape. cbn [fst snd] in *.
  set (wl := pad_of w p.1.1 / 2). set (hl := pad_of h p.1.2 / 2).
  set (dl := pad_of d p.2 / 2).
  destruct ((w <? p.1.1) || (h <? p.1.2) || (d <? p.2)) eqn:Hpad; cbn [fst snd].
  - unfold np_pad. rewrite Hshape. cbn [at3 shape3]. split.
    + intros i j k (Hi & Hj & Hk). unfold in_axis in *. cbn [fst snd] in *.
      unfold in_slice.
      replace (wl + i - wl) with i by lia. replace (hl + j - hl) with j by lia.
      replace (dl + k - dl) with k by lia.
      destruct (Z.leb_spec wl (wl + i)); [|lia].
      destruct (Z.ltb_spec (wl + i) (wl + w)); [|lia].
      destruct (Z.leb_spec hl (hl + j)); [|lia].
      destruct (Z.ltb_spec (hl + j) (hl + h)); [|lia].
      destruct (Z.leb_spec dl (dl + k)); [|lia].
      destruct (Z.ltb_spec (dl + k) (dl + d)); [|lia].
      reflexivity.
    + intros i j k _ Hout. unfold in_shape3, in_axis in Hout. cbn [fst snd] in Hout.
      unfold in_slice.
      destruct (Z.leb_spec wl i); cbn [andb]; [|reflexivity].
      destruct (Z.ltb_spec i (wl + w)); cbn [andb]; [|reflexivity].
      destruct (Z.leb_spec hl j); cbn [andb]; [|reflexivity].
      destruct (Z.ltb_spec j (hl + h)); cbn [andb]; [|reflexivity].
      destruct (Z.leb_spec dl k); cbn [andb]; [|reflexivity].
      destruct (Z.ltb_spec k (dl + d)); cbn [andb]; [|reflexivity].
      exfalso. apply Hout. lia.
  - apply orb_false_iff in Hpad as [Hpad Hd].
    apply orb_false_iff in Hpad as [Hw Hh].
    apply Z.ltb_ge in Hw, Hh, Hd.
    assert (wl = 0 /\ hl = 0 /\ dl = 0) as (-> & -> & ->).
    { unfold wl, hl, dl, pad_of.
      destruct (Z.ltb_spec w p.1.1); [lia|].
      destruct (Z.ltb_spec h p.1.2); [lia|].
      destruct (Z.ltb_spec d p.2); [lia|]. repeat split; reflexivity. }
    split.
    + intros i j k _. reflexivity.
    + intros i j k Hin Hout. exfalso. apply Hout. rewrite Hshape in Hin.
      rewrite !Z.sub_0_r. exact Hin.
Qed.

End SinglePatch.

(** *** Output names *)

Lemma str_split_nonempty (sep : Ascii.ascii) (s : string) :
  str_split sep s <> [].
Proof.
  induction s as [|c s IH]; cbn [str_split]; [discriminate|].
  destruct (Ascii.eqb c sep); [discriminate|].
  destruct (str_split sep s); [contradiction|discriminate].
Qed.

Lemma str_split_no_sep (sep : Ascii.ascii) (s : string) :
  str_contains sep s = false -> str_split sep s = [s].
Proof.
  induction s as [|c s IH]; cbn [str_split str_contains]; [reflexivity|].
  intros [Hc Hs]%orb_false_iff. rewrite Hc, (IH Hs). reflexivity.
Qed.

Lemma str_split_app (sep : Ascii.ascii) (a t : string) :
  str_contains sep a = false ->
  str_split sep (String.append a (String sep t)) = a :: str_split sep t.
Proof.
  induction a as [|c a IH]; simpl.
  - intros _. rewrite Ascii.eqb_refl. reflexivity.
  - intros [Hc Ha]%orb_false_iff. rewrite Hc, (IH Ha). reflexivity.
Qed.

Lemma str_split_fields (sep : Ascii.ascii) (s : string) :
  (str_contains sep s = false /\ exists a, str_split sep s = [a]) \/
  (str_contains sep s = true /\ exists a b r, str_split sep s = a :: b :: r).
Proof.
  induction s as [|c s IH]; cbn [str_split str_contains].
  - left. split; [reflexivity|]. eexists. reflexivity.
  - destruct (Ascii.eqb c sep); cbn [orb].
    + right. split; [reflexivity|].
      destruct (str_split sep s) as [|b r] eqn:Hs.
      * exfalso. exact (str_split_nonempty sep s Hs).
      * eexists _, _, _. reflexivity.
    + destruct IH as [(-> & a & ->)|(-> & a & b & r & ->)].
      * left. split; [reflexivity|]. eexists. reflexivity.
      * right. split; [reflexivity|]. eexists _, _, _. reflexivity.
Qed.

(** X5.  The output path of a file exists exactly when the file's name has
    an underscore: a name without one makes the second field of the split
    miss, which is an IndexError. *)
Theorem output_path_needs_underscore (output2 fname : string) :
  (str_contains underscore fname = false <->
   output_path output2 fname = Raise IndexError) /\
  (str_contains underscore fname = true <->
   exists path, output_path output2 fname = Ok path).
Proof.
  unfold output_path.
  destruct (str_split_fields underscore fname)
    as [(Hc & a & ->)|(Hc & a & b & r & ->)]; rewrite Hc.
  - split; split; try done. intros (path & [=]).
  - split; split; try done. intros _. eexists. reflexivity.
Qed.

(** X6.  The output name keeps the first two underscore-separated fields of
    the input name and drops everything after the second underscore: every
    name a_b_rest is written to output2 + a_b.nii.gz, whatever rest is (so
    two inputs that differ only there are written to the same path), and a
    name a_b with a single underscore to output2 + a_b.nii.gz as well. *)
Theorem output_path_keeps_two_fields (output2 a b rest : string) :
  str_contains underscore a = false -> str_contains underscore b = false ->
  output_path output2 (a +:+ "_" +:+ b +:+ "_" +:+ rest)
    = Ok ((((output2 +:+ a) +:+ "_") +:+ b) +:+ ".nii.gz") /\
  output_path output2 (a +:+ "_" +:+ b)
    = Ok ((((output2 +:+ a) +:+ "_") +:+ b) +:+ ".nii.gz").
Proof.
  intros Ha Hb. unfold output_path.
  change ("_" +:+ b +:+ "_" +:+ rest)
    with (String underscore (b +:+ String underscore rest)).
  change ("_" +:+ b) with (String underscore b).
  rewrite !str_split_app by assumption.
  rewrite (str_split_no_sep underscore b Hb).
  split; reflexivity.
Qed.

(** *** The loop over the files *)

Lemma str_le_total : Total str_le.
Proof. intros a b. apply String.leb_total. Qed.

Lemma py_sorted_nil (l : list string) : py_sorted l = [] <-> l = [].
Proof.
  pose proof (merge_sort_Permutation str_le l) as Hp. fold (py_sorted l) in Hp.
  split.
  - intros H. rewrite H in Hp. apply Permutation_nil. exact Hp.
  - intros ->. reflexivity.
Qed.

(** *** The categories of a label map *)

Lemma flatten3_In {A} (a : ndarray3 A) (v : A) :
  In v (flatten3 a) <->
  exists i j k, in_shape3 (shape3 a) i j k /\ at3 a i j k = v.
Proof.
  unfold flatten3, in_shape3, in_axis, py_range. rewrite in_flat_map. split.
  - intros (i & Hi%list_elem_of_In%elem_of_seqZ & Hin%in_flat_map).
    destruct Hin as (j & Hj%list_elem_of_In%elem_of_seqZ & Hin%in_map_iff).
    destruct Hin as (k & Hv & Hk%list_elem_of_In%elem_of_seqZ).
    exists i, j, k. split; [lia|exact Hv].
  - intros (i & j & k & (Hi & Hj & Hk) & Hv).
    exists i. split; [apply list_elem_of_In, elem_of_seqZ; lia|].
    apply in_flat_map. exists j.
    split; [apply list_elem_of_In, elem_of_seqZ; lia|].
    apply in_map_iff. exists k.
    split; [exact Hv|apply list_elem_of_In, elem_of_seqZ; lia].
Qed.

Lemma strictly_sorted (l : list Z) :
  StronglySorted Z.le l -> NoDup l -> StronglySorted Z.lt l.
Proof.
  induction 1 as [|x l Hs IH Hall]; intros Hnd; [constructor|].
  apply NoDup_cons in Hnd as [Hx Hnd]. constructor; [apply IH, Hnd|].
  rewrite Forall_forall in *. intros y Hy. specialize (Hall y Hy).
  assert (x <> y); [|lia]. intros ->. apply Hx, Hy.
Qed.

(** X7.  The categories listed for a label map are exactly the values that
    occur in it, each once, in strictly ascending order. *)
Theorem categories_are_the_labels_present (label_image : ndarray3 Z) :
  (forall v, In v (extract_categories label_image) <->
     exists i j k, in_shape3 (shape3 label_image) i j k /\
                   at3 label_image i j k = v) /\
  StronglySorted Z.lt (extract_categories label_image).
Proof.
  unfold extract_categories.
  pose proof (merge_sort_Permutation Z.le (remove_dups (flatten3 label_image)))
    as Hperm.
  split.
  - intros v. rewrite <- flatten3_In, <- !list_elem_of_In.
    rewrite Hperm. apply elem_of_remove_dups.
  - apply strictly_sorted.
    + apply (StronglySorted_merge_sort Z.le); apply _.
    + rewrite Hperm. apply NoDup_remove_dups.
Qed.

Lemma getFiles_In (entries : list (string * bool)) (fname : string) :
  In fname (getFiles entries) <-> In (fname, false) entries.
Proof.
  unfold getFiles. rewrite in_map_iff. split.
  - intros ([n d] & Hn & [Hin Hd]%filter_In). cbn in Hn, Hd. subst n.
    destruct d; [discriminate|exact Hin].
  - intros Hin. exists (fname, false). split; [reflexivity|].
    apply filter_In. split; [exact Hin|reflexivity].
Qed.

Section AllCases.

Context {env : inference_env} {reader : volume_reader}.

Lemma test_case_returns (imdir maskdir output2 : string) (num_classes : Z)
    (p : Z * Z * Z) (stride_xy stride_z : Z) (fname path : string)
    (im lbl : ndarray3 F) (label_map : ndarray3 Z) (score_map : ndarray4 F) :
  read_volume imdir fname = Ok im -> read_volume maskdir fname = Ok lbl ->
  test_single_case im stride_xy stride_z p num_classes
    = Ok (label_map, score_map) ->
  output_path output2 fname = Ok path ->
  test_case imdir maskdir output2 num_classes p stride_xy stride_z None fname
    = Ok (path, astype_uint8 label_map).
Proof.
  intros Him Hlbl Hs Hp. unfold test_case.
  rewrite Him, Hlbl. cbn [mbind result_bind]. rewrite Hs.
  cbn [mbind result_bind]. rewrite Hp. reflexivity.
Qed.

Lemma test_single_case_shape_labels (image : ndarray3 F)
    (stride_xy stride_z : Z) (p : Z * Z * Z) (num_classes : Z) :
  valid_shape (shape3 image) ->
  stride_xy <> 0 -> stride_z <> 0 -> 0 < num_classes ->
  exists label_map score_map,
    test_single_case image stride_xy stride_z p num_classes
      = Ok (label_map, score_map) /\
    shape3 label_map = shape3 image /\
    forall i j k, 0 <= at3 label_map i j k < num_classes.
Proof.
  intros (Hw & Hh & Hd) Hxy Hz Hnc.
  rewrite test_single_case_unfold.
  destruct (run_tiling_returns (pad_image image p).1.1 stride_xy stride_z p
              num_classes Hxy Hz (Z.lt_le_incl _ _ Hnc)) as (starts & ->).
  cbn [mbind result_bind]. rewrite argmax_classes_tiled.
  destruct (Z.eqb_spec num_classes 0); [lia|]. cbn [mbind result_bind].
  set (acc := fold_left _ starts _).
  destruct (place_shapes (pad_image image p).1.1 p starts
              (zero_accum num_classes (shape3 (pad_image image p).1.1)))
    as [Hs4 _].
  fold acc in Hs4. cbn [zero_accum fst snd shape4] in Hs4.
  assert (Hrange : forall i j k,
             0 <= at3 (argmax_axis0 (normalize acc.1 acc.2)) i j k
             < num_classes).
  { intros i j k.
    pose proof (argmax_axis0_range (normalize acc.1 acc.2) i j k) as Hr.
    cbn [normalize shape4] in Hr. rewrite Hs4 in Hr. cbn [fst] in Hr.
    apply Hr. exact Hnc. }
  rewrite pad_image_left_pads.
  destruct (pad_image image p).1.2 eqn:Hpad.
  - rewrite (pad_image_padded image p Hpad) in Hs4.
    destruct (shape3 image) as [[w h] d] eqn:Hshape. cbn [fst snd] in *.
    destruct (pad_of_split w p.1.1), (pad_of_split h p.1.2),
             (pad_of_split d p.2).
    eexists _, _. split; [reflexivity|].
    unfold slice3, argmax_axis0. cbn [normalize shape4].
    rewrite Hs4. cbn [shape3 at3].
    rewrite !slice_len_crop by assumption.
    split; [reflexivity|].
    intros i j k. specialize (Hrange (pad_of w p.1.1 / 2 + i)
      (pad_of h p.1.2 / 2 + j) (pad_of d p.2 / 2 + k)).
    unfold argmax_axis0 in Hrange. cbn [normalize shape4] in Hrange.
    rewrite Hs4 in Hrange. exact Hrange.
  - rewrite (pad_image_unpadded image p Hpad) in Hs4.
    destruct (shape3 image) as [[w h] d] eqn:Hshape. cbn [fst snd] in *.
    eexists _, _. split; [reflexivity|].
    split; [|exact Hrange].
    unfold argmax_axis0. cbn [normalize shape4]. rewrite Hs4. reflexivity.
Qed.

(** X8.  One file of the loop of [test_all_case]: if the image and the mask
    can be read, the name has an underscore, the strides are not zero and
    there are between 1 and 256 classes, the file is written; what is written
    is the label map of the image (the mask's content plays no part), of the
    image's shape, and the cast to uint8 changes no label: every entry is a
    class index below num_classes. *)
Theorem test_case_writes_label_map (imdir maskdir output2 : string)
    (num_classes : Z) (p : Z * Z * Z) (stride_xy stride_z : Z)
    (fname : string) (im lbl : ndarray3 F) :
  read_volume imdir fname = Ok im -> read_volume maskdir fname = Ok lbl ->
  valid_shape (shape3 im) ->
  stride_xy <> 0 -> stride_z <> 0 -> 0 < num_classes <= 256 ->
  str_contains underscore fname = true ->
  exists path prediction label_map score_map,
    test_case imdir maskdir output2 num_classes p stride_xy stride_z None
      fname = Ok (path, prediction) /\
    output_path output2 fname = Ok path /\
    test_single_case im stride_xy stride_z p num_classes
      = Ok (label_map, score_map) /\
    shape3 prediction = shape3 im /\
    forall i j k,
      at3 prediction i j k = at3 label_map i j k /\
      0 <= at3 prediction i j k < num_classes.
Proof.
  intros Him Hlbl Hshape Hxy Hz Hnc Hus.
  destruct (test_single_case_shape_labels im stride_xy stride_z p num_classes)
    as (label_map & score_map & Hs & Hsh & Hrange); [assumption..|lia|].
  destruct (str_split_fields underscore fname)
    as [(Hc & _)|(_ & a & b & r & Hsplit)]; [congruence|].
  assert (Hpath : exists path, output_path output2 fname = Ok path).
  { unfold output_path. rewrite Hsplit. eexists. reflexivity. }
  destruct Hpath as (path & Hpath).
  exists path, (astype_uint8 label_map), label_map, score_map.
  split; [eapply test_case_returns; eassumption|].
  split; [exact Hpath|]. split; [exact Hs|]. split; [exact Hsh|].
  intros i j k. cbn [astype_uint8 at3]. specialize (Hrange i j k).
  rewrite Z.mod_small by lia. split; [reflexivity|exact Hrange].
Qed.

Lemma test_case_preproc (imdir maskdir output2 : string) (num_classes : Z)
    (p : Z * Z * Z) (stride_xy stride_z : Z)
    (f : ndarray3 F -> ndarray3 F) (fname : string) :
  exists e,
    test_case imdir maskdir output2 num_classes p stride_xy stride_z (Some f)
      fname = Raise e /\
    (forall im lbl,
       read_volume imdir fname = Ok im -> read_volume maskdir fname = Ok lbl ->
       e = NameError "image").
Proof.
  unfold test_case.
  destruct (read_volume imdir fname) as [im|e]; cbn [mbind result_bind].
  - destruct (read_volume maskdir fname) as [lbl|e]; cbn [mbind result_bind].
    + eexists. split; [reflexivity|]. intros _ _ _ _. reflexivity.
    + eexists. split; [reflexivity|]. intros _ _ _ [=].
  - eexists. split; [reflexivity|]. intros _ _ [=].
Qed.

Lemma test_cases_spec (imdir maskdir output2 : string) (num_classes : Z)
    (p : Z * Z * Z) (stride_xy stride_z : Z)
    (preproc_fn : option (ndarray3 F -> ndarray3 F))
    (names : list string) (written : list (string * ndarray3 Z)) :
  let one := test_case imdir maskdir output2 num_classes p stride_xy stride_z
               preproc_fn in
  let run := test_cases imdir maskdir output2 num_classes p stride_xy stride_z
               preproc_fn names written in
  exists processed rest new,
    names = processed ++ rest /\ run.1 = written ++ new /\
    Forall2 (fun fname w => one fname = Ok w) processed new /\
    match run.2 with
    | Ok _ => rest = []
    | Raise e => exists fname rest', rest = fname :: rest' /\ one fname = Raise e
    end.
Proof.
  intros one. revert written.
  induction names as [|fname names IH]; intros written run.
  - exists [], [], []. cbn. rewrite app_nil_r. repeat split. constructor.
  - unfold run. cbn [test_cases]. fold one.
    destruct (one fname) as [w|e] eqn:Hone.
    + destruct (IH (written ++ [w])) as (processed & rest & new & -> & Hw & Hall & Hend).
      exists (fname :: processed), rest, (w :: new).
      split; [reflexivity|]. split; [rewrite Hw, <- app_assoc; reflexivity|].
      split; [constructor; assumption|exact Hend].
    + exists [], (fname :: names), []. cbn [fst snd]. rewrite app_nil_r.
      split; [reflexivity|]. split; [reflexivity|]. split; [constructor|].
      eexists _, _. split; [reflexivity|exact Hone].
Qed.

(** X9.  Calling [test_all_case] with a pre-processing function never writes
    a file: the first file stops the loop, with a NameError for the unbound
    local variable [image] of line 52 if the file's image and mask can be
    read; only for a directory without files does the call return. *)
Theorem preproc_fn_stops_first_file (entries : list (string * bool))
    (imdir maskdir output2 : string) (num_classes : Z) (p : Z * Z * Z)
    (stride_xy stride_z : Z) (f : ndarray3 F -> ndarray3 F) :
  let run := test_all_case entries imdir maskdir output2 num_classes p
               stride_xy stride_z (Some f) in
  run.1 = [] /\
  (run.2 = Ok tt <-> getFiles entries = []) /\
  (forall fname im lbl,
     head (py_sorted (getFiles entries)) = Some fname ->
     read_volume imdir fname = Ok im -> read_volume maskdir fname = Ok lbl ->
     run.2 = Raise (NameError "image")).
Proof.
  intros run. unfold run, test_all_case.
  destruct (py_sorted (getFiles entries)) as [|fname names] eqn:Hnames.
  - apply (proj1 (py_sorted_nil _)) in Hnames. cbn. repeat split; try done.
  - assert (getFiles entries <> []) as Hne.
    { intros H. apply (proj2 (py_sorted_nil _)) in H. congruence. }
    cbn [test_cases].
    destruct (test_case_preproc imdir maskdir output2 num_classes p stride_xy
                stride_z f fname) as (e & -> & He).
    cbn [fst snd]. split; [reflexivity|]. split; [split; [discriminate|contradiction]|].
    intros fname' im lbl [= <-] Him Hlbl. f_equal. eapply He; eassumption.
Qed.

(** X10.  [test_all_case] works through the non-directory entries of the
    image directory, each once, in ascending order of their names; it stops
    at the first file that fails, with that file's exception, and the files
    written before stay written, in order; if no file fails there is one
    written file per name. *)
Theorem test_all_case_stops_at_first_failure (entries : list (string * bool))
    (imdir maskdir output2 : string) (num_classes : Z) (p : Z * Z * Z)
    (stride_xy stride_z : Z)
    (preproc_fn : option (ndarray3 F -> ndarray3 F)) :
  let names := py_sorted (getFiles entries) in
  let one := test_case imdir maskdir output2 num_classes p stride_xy stride_z
               preproc_fn in
  let run := test_all_case entries imdir maskdir output2 num_classes p
               stride_xy stride_z preproc_fn in
  Permutation names (getFiles entries) /\
  (forall fname, In fname names <-> In (fname, false) entries) /\
  Sorted str_le names /\
  exists processed rest,
    names = processed ++ rest /\
    Forall2 (fun fname w => one fname = Ok w) processed run.1 /\
    match run.2 with
    | Ok _ => rest = []
    | Raise e => exists fname rest', rest = fname :: rest' /\ one fname = Raise e
    end.
Proof.
  intros names one run.
  assert (Hperm : Permutation names (getFiles entries))
    by apply merge_sort_Permutation.
  split; [exact Hperm|].
  split.
  { intros fname. rewrite <- (getFiles_In entries fname). split.
    - apply Permutation_in. exact Hperm.
    - apply Permutation_in. symmetry. exact Hperm. }
  split.
  { exact (@Sorted_merge_sort _ str_le _ str_le_total (getFiles entries)). }
  destruct (test_cases_spec imdir maskdir output2 num_classes p stride_xy
              stride_z preproc_fn names [])
    as (processed & rest & new & Hn & Hw & Hall & Hend).
  exists processed, rest. split; [exact Hn|].
  unfold run, test_all_case. fold names. rewrite Hw. cbn [app].
  split; [exact Hall|exact Hend].
Qed.

(** X11.  [test_calculate_metric] runs inference with patch (64, 160, 160),
    stride 80 in the plane, stride 32 along the first axis and 14 classes;
    with these settings no volume makes inference fail: if every file of
    ./test/ has an underscore in its name and can be read there and in
    ./test_label/, the loop returns and has written one label map per file,
    in ascending order of the names, each under ./predict/ and of the shape
    of its image. *)
Theorem test_calculate_metric_writes_every_file
    (entries : list (string * bool)) :
  (forall fname, In fname (getFiles entries) ->
     str_contains underscore fname = true /\
     exists im lbl,
       read_volume "./test/" fname = Ok im /\ valid_shape (shape3 im) /\
       read_volume "./test_label/" fname = Ok lbl) ->
  let run := test_calculate_metric entries in
  run.2 = Ok tt /\
  Forall2 (fun fname w =>
             output_path "./predict/" fname = Ok w.1 /\
             exists im, read_volume "./test/" fname = Ok im /\
                        shape3 w.2 = shape3 im)
          (py_sorted (getFiles entries)) run.1.
Proof.
  intros Hfiles run.
  assert (Hnames : forall fname, In fname (py_sorted (getFiles entries)) ->
            In fname (getFiles entries)).
  { intros fname Hin. eapply Permutation_in; [|exact Hin].
    apply merge_sort_Permutation. }
  destruct (test_cases_spec "./test/" "./test_label/" "./predict/" 14
              (64, 160, 160) 80 32 None (py_sorted (getFiles entries)) [])
    as (processed & rest & new & Hn & Hw & Hall & Hend).
  change (test_cases "./test/" "./test_label/" "./predict/" 14 (64, 160, 160)
            80 32 None (py_sorted (getFiles entries)) []) with run in Hw, Hend.
  cbn [app] in Hw.
  assert (Hone : forall fname, In fname (py_sorted (getFiles entries)) ->
            exists w im,
              test_case "./test/" "./test_label/" "./predict/" 14
                (64, 160, 160) 80 32 None fname = Ok w /\
              output_path "./predict/" fname = Ok w.1 /\
              read_volume "./test/" fname = Ok im /\ shape3 w.2 = shape3 im).
  { intros fname Hin.
    destruct (Hfiles fname (Hnames fname Hin)) as (Hus & im & lbl & Him & Hsh & Hlbl).
    destruct (test_single_case_shape_labels im 80 32 (64, 160, 160) 14)
      as (label_map & score_map & Hs & Hshape & _); [assumption|lia..|].
    destruct (str_split_fields underscore fname)
      as [(Hc & _)|(_ & a & b & r & Hsplit)]; [congruence|].
    assert (Hpath : exists path, output_path "./predict/" fname = Ok path).
    { unfold output_path. rewrite Hsplit. eexists. reflexivity. }
    destruct Hpath as (path & Hpath).
    exists (path, astype_uint8 label_map), im.
    split; [eapply test_case_returns; eassumption|].
    split; [exact Hpath|]. split; [exact Him|exact Hshape]. }
  assert (Hrest : rest = []).
  { destruct run.2 as [u|e]; [exact Hend|].
    destruct Hend as (fname & rest' & -> & Hfail).
    destruct (Hone fname) as (w & im & Hok & _).
    { rewrite Hn. apply in_or_app. right. left. reflexivity. }
    congruence. }
  subst rest. rewrite app_nil_r in Hn. subst processed.
  split.
  - destruct run.2 as [[]|e]; [reflexivity|].
    destruct Hend as (fname & rest' & [=] & _).
  - rewrite Hw. clear Hw Hend.
    assert (Hgen : forall l,
              Forall2 (fun fname w =>
                         test_case "./test/" "./test_label/" "./predict/" 14
                           (64, 160, 160) 80 32 None fname = Ok w) l new ->
              (forall fname, In fname l ->
                 In fname (py_sorted (getFiles entries))) ->
              Forall2 (fun fname w =>
                         output_path "./predict/" fname = Ok w.1 /\
                         exists im, read_volume "./test/" fname = Ok im /\
                                    shape3 w.2 = shape3 im) l new).
    { clear Hall. intros l Hall.
      induction Hall as [|fname w l' new' Hok Hall IH]; intros Hin;
        [constructor|].
      constructor.
      - destruct (Hone fname (Hin fname (or_introl eq_refl)))
          as (w' & im & Hok' & Hpath & Him & Hsh).
        assert (w' = w) as -> by congruence.
        split; [exact Hpath|]. exists im. split; [exact Him|exact Hsh].
      - apply IH. intros f Hf. apply Hin. right. exact Hf. }
    apply Hgen; [exact Hall|auto].
Qed.

End AllCases.

(** X1 at volume (6, 3, 1) with patch (3, 2, 2), stride_z = 2 and
    stride_xy = 1: six patches, at the offsets 0, 2 and 3 of the first axis
    and 0 and 1 of the second, in a volume padded along the third axis. *)
Lemma patches_lie_inside_padded_volume_witness :
  shape3 padded_6_3_2 = (6, 3, 2) /\
  axis_starts 6 3 2 = Ok [0; 2; 3] /\
  axis_starts 3 2 1 = Ok [0; 1] /\
  axis_starts 2 2 1 = Ok [0] /\
  forall x y z, In (x, y, z) (offset_triples [0; 2; 3] [0; 1] [0]) ->
    (0 <= x /\ x + 3 <= 6) /\ (0 <= y /\ y + 2 <= 3) /\
    (0 <= z /\ z + 2 <= 2) /\
    shape3 (slice3 padded_6_3_2 x (x + 3) y (y + 2) z (z + 2)) = (3, 2, 2).
Proof.
  destruct (patches_lie_inside_padded_volume (env := float_env) volume_6_3_1
              1 2 (3, 2, 2))
    as (xs & ys & zs & Hx & Hy & Hz & Hin);
    [unfold valid_shape; cbn; lia | lia | lia |].
  assert (Hxs : xs = [0; 2; 3]) by (vm_compute in Hx; congruence).
  assert (Hys : ys = [0; 1]) by (vm_compute in Hy; congruence).
  assert (Hzs : zs = [0]) by (vm_compute in Hz; congruence).
  subst xs ys zs.
  split; [reflexivity|]. split; [exact Hx|]. split; [exact Hy|].
  split; [exact Hz|]. exact Hin.
Defined.

(** X2 at volume (6, 2, 2) with patch (2, 2, 2), stride_z = 3 and
    stride_xy = 1. *)
Lemma no_patch_evaluated_twice_witness :
  exists xs ys zs,
    axis_starts
      (shape3 (pad_image (env := float_env) volume_6_2_2 (2, 2, 2)).1.1).1.1
      2 3 = Ok xs /\
    axis_starts
      (shape3 (pad_image (env := float_env) volume_6_2_2 (2, 2, 2)).1.1).1.2
      2 1 = Ok ys /\
    axis_starts
      (shape3 (pad_image (env := float_env) volume_6_2_2 (2, 2, 2)).1.1).2
      2 1 = Ok zs /\
    NoDup xs /\ NoDup ys /\ NoDup zs /\ NoDup (offset_triples xs ys zs).
Proof.
  apply (no_patch_evaluated_twice (env := float_env) volume_6_2_2 1 3
           (2, 2, 2)); lia.
Defined.

(** X3 at volume (3, 2, 2) with patch (4, 2, 2). *)
Lemma volume_within_patch_needs_one_evaluation_witness :
  shape3 (pad_image (env := float_env) volume_3_2_2 (4, 2, 2)).1.1 = (4, 2, 2)
  /\
  run_tiling (env := float_env)
    (pad_image (env := float_env) volume_3_2_2 (4, 2, 2)).1.1 1 2 (4, 2, 2) 2
  = (if 2 <? 0 then Raise ValueError
     else Ok (add_patch (env := float_env)
                (pad_image (env := float_env) volume_3_2_2 (4, 2, 2)).1.1
                (4, 2, 2) (zero_accum (env := float_env) 2 (4, 2, 2)) 0 0 0))
  /\
  forall stride_xy' stride_z', stride_xy' <> 0 -> stride_z' <> 0 ->
    test_single_case (env := float_env) volume_3_2_2 stride_xy' stride_z'
      (4, 2, 2) 2 =
    test_single_case (env := float_env) volume_3_2_2 1 2 (4, 2, 2) 2.
Proof.
  apply (volume_within_patch_needs_one_evaluation (env := float_env)
           volume_3_2_2 1 2 (4, 2, 2) 2); cbn; lia.
Defined.

(** X6 at the name case_0001_0000.nii.gz. *)
Lemma output_path_keeps_two_fields_witness :
  output_path "./predict/" "case_0001_0000.nii.gz"
    = Ok "./predict/case_0001.nii.gz"%string /\
  output_path "./predict/" "case_0001" = Ok "./predict/case_0001.nii.gz"%string.
Proof.
  apply (output_path_keeps_two_fields "./predict/" "case" "0001" "0000.nii.gz");
    reflexivity.
Defined.

(** X8 at the file case_0001_0000.nii.gz, read as the volume (3, 2, 2), with
    the settings of [test_calculate_metric]. *)
Lemma test_case_writes_label_map_witness :
  exists path prediction label_map score_map,
    test_case (reader := sample_reader) "./test/" "./test_label/" "./predict/"
      14 (64, 160, 160) 80 32 None "case_0001_0000.nii.gz"
      = Ok (path, prediction) /\
    output_path "./predict/" "case_0001_0000.nii.gz" = Ok path /\
    test_single_case (env := float_env) volume_3_2_2 80 32 (64, 160, 160) 14
      = Ok (label_map, score_map) /\
    shape3 prediction = shape3 volume_3_2_2 /\
    forall i j k,
      at3 prediction i j k = at3 label_map i j k /\
      0 <= at3 prediction i j k < 14.
Proof.
  apply (test_case_writes_label_map (reader := sample_reader) "./test/"
           "./test_label/" "./predict/" 14 (64, 160, 160) 80 32
           "case_0001_0000.nii.gz" volume_3_2_2 volume_3_2_2).
  - reflexivity.
  - reflexivity.
  - unfold valid_shape. cbn. lia.
  - lia.
  - lia.
  - lia.
  - reflexivity.
Defined.

(** X11 at a directory with two files and one sub-directory. *)
Lemma test_calculate_metric_writes_every_file_witness :
  (test_calculate_metric (reader := sample_reader) sample_entries).2 = Ok tt /\
  Forall2 (fun fname w =>
             output_path "./predict/" fname = Ok w.1 /\
             exists im, read_volume (volume_reader := sample_reader)
                          "./test/" fname = Ok im /\
                        shape3 w.2 = shape3 im)
          (py_sorted (getFiles sample_entries))
          (test_calculate_metric (reader := sample_reader) sample_entries).1.
Proof.
  apply (test_calculate_metric_writes_every_file (reader := sample_reader)
           sample_entries).
  intros fname [<-|[<-|[]]].
  - split; [reflexivity|]. exists volume_3_2_2, volume_3_2_2.
    split; [reflexivity|]. split; [|reflexivity]. unfold valid_shape. cbn. lia.
  - split; [reflexivity|]. exists volume_3_2_2, volume_3_2_2.
    split; [reflexivity|]. split; [|reflexivity]. unfold valid_shape. cbn. lia.
Defined.

End PredictFacts.

(** ** Facts about [src/train_semi_3Dmt_dist.py] *)

Module TrainFacts.

Import Train.

Local Open Scope R_scope.

Section Training.

Context {torch : collaborators}.

(** *** Facts about floats *)

Lemma Reqb_true (x y : R) : x = y -> Reqb x y = true.
Proof. intros ->. unfold Reqb. destruct (Req_dec_T y y); congruence. Qed.

Lemma Reqb_false (x y : R) : x <> y -> Reqb x y = false.
Proof. intros Hne. unfold Reqb. destruct (Req_dec_T x y); congruence. Qed.

Lemma Rltb_true (x y : R) : x < y -> Rltb x y = true.
Proof. intros Hlt. unfold Rltb. destruct (Rlt_dec x y); [reflexivity|lra]. Qed.

Lemma Rltb_false (x y : R) : y <= x -> Rltb x y = false.
Proof. intros Hle. unfold Rltb. destruct (Rlt_dec x y); [lra|reflexivity]. Qed.

Lemma fdiv_fin (a c : R) : c <> 0 -> fdiv (Fin a) c = Fin (a / c).
Proof. intros Hc. unfold fdiv. rewrite (Reqb_false c 0 Hc). reflexivity. Qed.

Lemma fdiv_zero_zero : fdiv (Fin 0) 0 = NaN.
Proof. unfold fdiv. rewrite !Reqb_true by reflexivity. reflexivity. Qed.

Lemma fadd_nan_r (x : pyfloat) : fadd x NaN = NaN.
Proof. destruct x; reflexivity. Qed.

(** *** The masked unsupervised loss *)

Lemma count_true_not_ignored (ignore_mask : list Z) :
  count_true (not_ignored ignore_mask) = non_ignored_count ignore_mask.
Proof.
  unfold non_ignored_count, not_ignored.
  induction ignore_mask as [|g gs IH]; [reflexivity|].
  cbn [map count_true fold_right List.filter].
  fold (count_true (map (fun g => negb (g =? 255)%Z) gs)). rewrite IH.
  destruct (negb (g =? 255)%Z); cbn [length]; lia.
Qed.

Lemma masked_sum_qualifying (loss conf : tensor) (ignore_mask : list Z)
    (thresh : R) :
  tensor_sum
    (zip_with (fun l b => l * b2r b) loss
       (zip_with andb (confident conf thresh) (not_ignored ignore_mask)))
  = qualifying_sum loss conf ignore_mask thresh.
Proof.
  unfold confident, not_ignored.
  revert conf ignore_mask.
  induction loss as [|l ls IH]; intros [|c cs] [|g gs]; try reflexivity.
  cbn [map zip_with tensor_sum fold_right qualifying_sum].
  fold (tensor_sum
          (zip_with (fun l b => l * b2r b) ls
             (zip_with andb (map (fun c => Rleb thresh c) cs)
                (map (fun g => negb (g =? 255)%Z) gs)))).
  rewrite IH. destruct (Rleb thresh c && negb (g =? 255)%Z); unfold b2r; lra.
Qed.

(** The loss of lines 184-186 is the sum over the qualifying voxels divided
    by the number of voxels that are not ignored. *)
Lemma unsup_loss_masked_mean (loss conf : tensor) (ignore_mask : list Z)
    (thresh : R) :
  unsup_loss loss conf ignore_mask thresh =
  fdiv (Fin (qualifying_sum loss conf ignore_mask thresh))
       (IZR (non_ignored_count ignore_mask)).
Proof.
  unfold unsup_loss.
  rewrite masked_sum_qualifying, count_true_not_ignored. reflexivity.
Qed.

Lemma unsup_loss_some_kept (loss conf : tensor) (ignore_mask : list Z)
    (thresh : R) :
  non_ignored_count ignore_mask <> 0%Z ->
  unsup_loss loss conf ignore_mask thresh =
  Fin (qualifying_sum loss conf ignore_mask thresh
       / IZR (non_ignored_count ignore_mask)).
Proof.
  intros Hn. rewrite unsup_loss_masked_mean. apply fdiv_fin.
  intros H0. apply eq_IZR_R0 in H0. contradiction.
Qed.

Lemma qualifying_sum_all_ignored (loss conf : tensor) (n : nat) (thresh : R) :
  qualifying_sum loss conf (repeat 255%Z n) thresh = 0.
Proof.
  revert loss conf. induction n as [|n IH]; intros [|l ls] [|c cs];
    try reflexivity.
  cbn [repeat qualifying_sum]. rewrite IH, andb_false_r. lra.
Qed.

Lemma non_ignored_count_all_ignored (n : nat) :
  non_ignored_count (repeat 255%Z n) = 0%Z.
Proof.
  unfold non_ignored_count. induction n as [|n IH]; [reflexivity|exact IH].
Qed.

Lemma unsup_loss_all_ignored (loss conf : tensor) (n : nat) (thresh : R) :
  unsup_loss loss conf (repeat 255%Z n) thresh = NaN.
Proof.
  rewrite unsup_loss_masked_mean, qualifying_sum_all_ignored,
    non_ignored_count_all_ignored.
  apply fdiv_zero_zero.
Qed.

(** C4, the code at the failing input.  When every voxel of the unlabeled
    batch carries the ignore value 255, whatever the other tensors are, the
    division of line 186 is zero by zero: no exception is raised, the
    unsupervised term is NaN, and so is the combined loss of line 188. *)
Theorem wholly_ignored_batch_gives_nan_loss (student : module_state)
    (b : batch) (n : nat) (img_u_s1 : tensor) (mask_u_w : list Z)
    (conf_u_w : tensor) (conf_thresh : R) :
  let ignored :=
    Batch (img_x b) (mask_x b) (img_u_w b) (img_u_s b) (repeat 255%Z n) in
  (loss_terms student ignored img_u_s1 mask_u_w conf_u_w conf_thresh).1.2
    = NaN /\
  (loss_terms student ignored img_u_s1 mask_u_w conf_u_w conf_thresh).2
    = NaN.
Proof.
  intros ignored. unfold loss_terms. subst ignored. cbn [ignore_mask fst snd].
  rewrite unsup_loss_all_ignored. split; [reflexivity|].
  unfold combined_loss. rewrite fadd_nan_r. reflexivity.
Qed.

(** C3, the code at the failing input.  Whatever the batch and the state, the
    iteration stops at line 181: the name img_u_s1 is bound neither in the
    frame of main nor at module level, so no student prediction on the
    strongly augmented image and no unsupervised loss is computed. *)
Theorem iteration_raises_name_error (cfg : config) (args : arguments)
    (rank len_u i : Z) (b : batch) (st : train_state) :
  load_name (frame_at_181 b st) "img_u_s" = Ok (ObjTensor (img_u_s b)) /\
  train_iteration cfg args rank len_u i b st = Raise (NameError "img_u_s1").
Proof.
  split.
  - unfold load_name, frame_at_181.
    rewrite !lookup_insert_ne by discriminate.
    rewrite lookup_insert_eq. reflexivity.
  - unfold train_iteration, load_name, frame_at_181.
    rewrite !lookup_insert_ne by discriminate.
    replace (namespace_of local_names !! "img_u_s1") with (@None pyobj)
      by (vm_compute; reflexivity).
    replace (namespace_of global_names !! "img_u_s1") with (@None pyobj)
      by (vm_compute; reflexivity).
    reflexivity.
Qed.

Lemma train_iteration_unbound (cfg : config) (args : arguments)
    (rank len_u i : Z) (b : batch) (st : train_state) :
  train_iteration cfg args rank len_u i b st = Raise (NameError "img_u_s1").
Proof.
  unfold train_iteration, load_name, frame_at_181.
  rewrite !lookup_insert_ne by discriminate.
  replace (namespace_of local_names !! "img_u_s1") with (@None pyobj)
    by (vm_compute; reflexivity).
  replace (namespace_of global_names !! "img_u_s1") with (@None pyobj)
    by (vm_compute; reflexivity).
  reflexivity.
Qed.

(** *** The ramp-up, the learning rate and the teacher update *)

Lemma sigmoid_rampup_partial (t T : R) :
  0 <= t < T -> sigmoid_rampup t T = exp (-5 * (1 - t / T) ^ 2).
Proof.
  intros Ht. unfold sigmoid_rampup, np_clip.
  rewrite Reqb_false by lra.
  rewrite Rmax_left, Rmin_left by lra. f_equal. ring.
Qed.

Lemma sigmoid_rampup_full (t T : R) :
  0 <= t -> T <= t -> sigmoid_rampup t T = 1.
Proof.
  intros Ht HT. unfold sigmoid_rampup, np_clip.
  destruct (Req_dec_T T 0) as [->|Hne].
  - rewrite Reqb_true by reflexivity. reflexivity.
  - rewrite Reqb_false by assumption.
    rewrite Rmax_left, Rmin_right by lra.
    replace (1 - T / T) with 0 by (field; assumption).
    replace (-5 * 0 * 0) with 0 by ring. apply exp_0.
Qed.

Lemma float_pow_pos (x y : R) : 0 < x -> float_pow x y = Ok (Rpower x y).
Proof.
  intros Hx. unfold float_pow.
  rewrite Rltb_false, Reqb_false by lra. reflexivity.
Qed.

Lemma float_pow_zero (y : R) : 0 < y -> float_pow 0 y = Ok 0.
Proof.
  intros Hy. unfold float_pow.
  rewrite Rltb_false by lra. rewrite Reqb_true by reflexivity.
  rewrite Reqb_false by lra. rewrite Rltb_true by lra. reflexivity.
Qed.

Lemma Rpower_one (y : R) : Rpower 1 y = 1.
Proof. unfold Rpower. rewrite ln_1, Rmult_0_r. apply exp_0. Qed.

Lemma fraction_of_total (iters total : Z) :
  (0 <= iters < total)%Z -> 0 <= IZR iters / IZR total < 1.
Proof.
  intros Hi.
  assert (0 < IZR total) by (apply IZR_lt; lia).
  assert (0 <= IZR iters) by (apply IZR_le; lia).
  assert (IZR iters < IZR total) by (apply IZR_lt; lia).
  split.
  - apply Rmult_le_pos; [assumption|]. left. apply Rinv_0_lt_compat. assumption.
  - apply (Rmult_lt_reg_r (IZR total)); [assumption|].
    unfold Rdiv. rewrite Rmult_assoc, Rinv_l by lra. lra.
Qed.

Lemma poly_lr_in_loop (base_lr : R) (iters total : Z) :
  (0 <= iters < total)%Z ->
  poly_lr base_lr iters total =
  Ok (base_lr * Rpower (1 - IZR iters / IZR total) 0.9).
Proof.
  intros Hi. unfold poly_lr.
  destruct (Z.eqb_spec total 0); [lia|].
  pose proof (fraction_of_total iters total Hi).
  rewrite float_pow_pos by lra. reflexivity.
Qed.

Lemma poly_lr_start (base_lr : R) (total : Z) :
  total <> 0%Z -> poly_lr base_lr 0 total = Ok base_lr.
Proof.
  intros Ht. unfold poly_lr. destruct (Z.eqb_spec total 0); [contradiction|].
  replace (1 - 0 / IZR total) with 1
    by (unfold Rdiv; rewrite Rmult_0_l; ring).
  rewrite float_pow_pos by lra. cbn. rewrite Rpower_one, Rmult_1_r.
  reflexivity.
Qed.

Lemma poly_lr_end (base_lr : R) (total : Z) :
  total <> 0%Z -> poly_lr base_lr total total = Ok 0.
Proof.
  intros Ht. unfold poly_lr. destruct (Z.eqb_spec total 0); [contradiction|].
  replace (1 - IZR total / IZR total) with 0.
  - rewrite float_pow_zero by lra. cbn. rewrite Rmult_0_r. reflexivity.
  - field. intros H0. apply eq_IZR_R0 in H0. contradiction.
Qed.

(** *** The consistency weight *)

Lemma consistency_weight_schedule (args : arguments) (t : Z) :
  (0 <= t)%Z ->
  (IZR t < consistency_rampup args ->
   get_current_consistency_weight args t =
   consistency args * exp (-5 * (1 - IZR t / consistency_rampup args) ^ 2)) /\
  (consistency_rampup args <= IZR t ->
   get_current_consistency_weight args t = consistency args).
Proof.
  intros Ht. assert (0 <= IZR t) by (apply IZR_le; lia).
  unfold get_current_consistency_weight. split; intros HT.
  - rewrite sigmoid_rampup_partial by lra. reflexivity.
  - rewrite sigmoid_rampup_full by lra. apply Rmult_1_r.
Qed.

(** *** Checkpoints *)


End Training.

(** *** The iteration as the source has it, at concrete inputs *)

(** C5, the code at the failing input.  At the second batch of the first
    epoch of the concrete run the iteration stops at line 181 with a
    NameError: no loss reaches line 188 or the backward pass of line 193,
    and no consistency weight is written.  Lines 187 and 188 hold the
    formulas of the claim: the combined loss of 0.3 and 0.5 would be 0.4,
    and the weight at iter_num = 0 would be 0.1 * exp(-5). *)
Theorem iteration_backpropagates_no_loss :
  train_iteration (torch := sample_torch) sample_cfg sample_args 0 3 1
    sample_batch sample_state = Raise (NameError "img_u_s1") /\
  combined_loss (Fin 0.3) (Fin 0.5) = Fin 0.4 /\
  get_current_consistency_weight sample_args (iter_num sample_state / 200)%Z
    = 0.1 * exp (-5).
Proof.
  split; [apply train_iteration_unbound|]. split.
  - unfold combined_loss. cbn [fadd]. rewrite fdiv_fin by lra. f_equal. lra.
  - change (iter_num sample_state / 200)%Z with 0%Z.
    destruct (consistency_weight_schedule sample_args 0 ltac:(lia))
      as [Hpartial _].
    rewrite Hpartial by (cbn; lra). cbn [consistency consistency_rampup
      sample_args]. f_equal. f_equal. unfold Rdiv. rewrite Rmult_0_l. ring.
Qed.

(** C6, the code at the failing input.  At the second batch of the first
    epoch of the concrete run (teacher parameter 0, student parameter 2,
    iters = 1) the iteration stops at line 181 with a NameError, so the
    teacher update of lines 205-210 is not reached and the teacher keeps
    the parameter 0.  The update itself holds the formula of the claim: the
    ratio at iters = 1 is 0.5, and with it the teacher's parameter would
    become 1. *)
Theorem teacher_update_is_not_reached :
  train_iteration (torch := sample_torch) sample_cfg sample_args 0 3 1
    sample_batch sample_state = Raise (NameError "img_u_s1") /\
  ema_ratio_at (epoch sample_state * 3 + 1) = Ok 0.5 /\
  ema_update 0.5 (model sample_state) (model_ema sample_state)
    = ModuleState [[1]] [[1]].
Proof.
  split; [apply train_iteration_unbound|]. split.
  - unfold ema_ratio_at. change (epoch sample_state * 3 + 1 + 1)%Z with 2%Z.
    cbn [Z.eqb]. f_equal. rewrite Rmin_left by lra. lra.
  - unfold ema_update. cbn [model model_ema sample_state parameters buffers
      ema_loop ema_blend zip_with].
    f_equal; f_equal; f_equal; lra.
Qed.

(** C7, the code at the failing input.  At the first batch of the first
    epoch of the concrete run (iters = 0) the iteration stops at line 181
    with a NameError, so the assignment of line 204 is not reached and the
    optimizer keeps the rate it had.  Line 203 holds the formula of the
    claim: at iters = 0 it gives the base rate and at iters = total_iters
    it gives 0. *)
Theorem learning_rate_is_not_assigned :
  train_iteration (torch := sample_torch) sample_cfg sample_args 0 3 0
    sample_batch sample_state = Raise (NameError "img_u_s1") /\
  poly_lr (cfg_lr sample_cfg) 0 (3 * cfg_epochs sample_cfg)
    = Ok (cfg_lr sample_cfg) /\
  poly_lr (cfg_lr sample_cfg) (3 * cfg_epochs sample_cfg)
    (3 * cfg_epochs sample_cfg) = Ok 0.
Proof.
  split; [apply train_iteration_unbound|]. split.
  - apply poly_lr_start. cbn. lia.
  - apply poly_lr_end. cbn. lia.
Qed.

(** *** Ranges and monotonicity of the schedules *)

Lemma exp_le (x y : R) : x <= y -> exp x <= exp y.
Proof.
  intros [Hlt| ->]; [left; apply exp_increasing; exact Hlt|right; reflexivity].
Qed.

Lemma np_clip_range (x hi : R) : 0 <= hi -> 0 <= np_clip x 0 hi <= hi.
Proof.
  intros Hhi. unfold np_clip. split.
  - apply Rmin_glb; [apply Rmax_r|exact Hhi].
  - apply Rmin_r.
Qed.

Lemma np_clip_mono (x y hi : R) : x <= y -> np_clip x 0 hi <= np_clip y 0 hi.
Proof.
  intros Hxy. unfold np_clip. apply Rle_min_compat_r.
  apply Rmax_lub; [|apply Rmax_r].
  apply Rle_trans with y; [exact Hxy|apply Rmax_l].
Qed.

Lemma phase_range (c T : R) : 0 < T -> 0 <= c <= T -> 0 <= 1 - c / T <= 1.
Proof.
  intros HT Hc.
  assert (0 <= c / T).
  { apply Rmult_le_pos; [lra|]. left. apply Rinv_0_lt_compat. exact HT. }
  assert (c / T <= 1).
  { apply (Rmult_le_reg_r T); [exact HT|].
    unfold Rdiv. rewrite Rmult_assoc, Rinv_l by lra. lra. }
  lra.
Qed.


(** X13.  With a positive ramp-up length and a non-negative maximum weight
    the consistency weight never decreases as its argument (iter_num // 200)
    grows, and never exceeds the maximum weight. *)
Theorem consistency_weight_monotone (args : arguments) (t1 t2 : Z) :
  0 <= consistency args -> 0 < consistency_rampup args -> (t1 <= t2)%Z ->
  get_current_consistency_weight args t1
    <= get_current_consistency_weight args t2 /\
  get_current_consistency_weight args t2 <= consistency args.
Proof.
  intros Hw HT Ht. unfold get_current_consistency_weight, sigmoid_rampup.
  rewrite Reqb_false by lra.
  pose proof (np_clip_range (IZR t1) _ (Rlt_le _ _ HT)) as Hc1.
  pose proof (np_clip_range (IZR t2) _ (Rlt_le _ _ HT)) as Hc2.
  pose proof (np_clip_mono (IZR t1) (IZR t2) (consistency_rampup args)
                (IZR_le _ _ Ht)) as Hm.
  pose proof (phase_range _ _ HT Hc1) as Hp1.
  pose proof (phase_range _ _ HT Hc2) as Hp2.
  assert (Hph : 1 - np_clip (IZR t2) 0 (consistency_rampup args)
                    / consistency_rampup args
                <= 1 - np_clip (IZR t1) 0 (consistency_rampup args)
                       / consistency_rampup args).
  { apply Rplus_le_compat_l, Ropp_le_contravar.
    apply Rmult_le_compat_r; [|exact Hm].
    left. apply Rinv_0_lt_compat. exact HT. }
  set (p1 := 1 - np_clip (IZR t1) 0 (consistency_rampup args)
                 / consistency_rampup args) in *.
  set (p2 := 1 - np_clip (IZR t2) 0 (consistency_rampup args)
                 / consistency_rampup args) in *.
  split.
  - apply Rmult_le_compat_l; [exact Hw|]. apply exp_le. nra.
  - assert (exp (-5 * p2 * p2) <= 1); [|nra].
    rewrite <- exp_0. apply exp_le. nra.
Qed.

Lemma ema_ratio_nonneg (iters : Z) :
  (0 <= iters)%Z ->
  ema_ratio_at iters = Ok (Rmin (1 - 1 / IZR (iters + 1)) 0.996) /\
  1 <= IZR (iters + 1) /\
  0 < / IZR (iters + 1) <= 1 /\
  IZR (iters + 1) * / IZR (iters + 1) = 1.
Proof.
  intros Hi. unfold ema_ratio_at.
  destruct (Z.eqb_spec (iters + 1) 0); [lia|].
  assert (Hn : 1 <= IZR (iters + 1)) by (apply IZR_le; lia).
  split; [reflexivity|]. split; [exact Hn|].
  assert (Hinv : 0 < / IZR (iters + 1)) by (apply Rinv_0_lt_compat; lra).
  assert (Hone : IZR (iters + 1) * / IZR (iters + 1) = 1)
    by (apply Rinv_r; lra).
  split; [|exact Hone]. split; [exact Hinv|]. nra.
Qed.

Lemma ema_ratio_range (iters : Z) :
  (0 <= iters)%Z ->
  0 <= Rmin (1 - 1 / IZR (iters + 1)) 0.996 <= 0.996.
Proof.
  intros Hi. destruct (ema_ratio_nonneg iters Hi) as (_ & _ & Hinv & _).
  split; [apply Rmin_glb; lra|apply Rmin_r].
Qed.

(** X14.  For every iteration number from 0 on the teacher's decay rate is
    defined and lies between 0 and 0.996; it is 0 exactly at iteration 0,
    equals 1 - 1/(iters + 1) up to iteration 249, where it reaches 0.996,
    and stays there; it never decreases from one iteration to a later
    one. *)
Theorem ema_ratio_grows_to_cap (iters : Z) :
  (0 <= iters)%Z ->
  exists r,
    ema_ratio_at iters = Ok r /\ 0 <= r <= 0.996 /\
    (r = 0 <-> iters = 0%Z) /\
    ((iters <= 249)%Z -> r = 1 - 1 / IZR (iters + 1)) /\
    ((249 <= iters)%Z -> r = 0.996) /\
    forall iters', (iters <= iters')%Z ->
      exists r', ema_ratio_at iters' = Ok r' /\ r <= r'.
Proof.
  intros Hi. destruct (ema_ratio_nonneg iters Hi) as (Hr & Hn & Hinv & Hone).
  eexists. split; [exact Hr|]. split; [apply ema_ratio_range; exact Hi|].
  set (n := IZR (iters + 1)) in *. set (x := / n) in *.
  assert (Hcap : (iters <= 249)%Z -> 1 - 1 / n <= 0.996).
  { intros Hle. assert (n <= 250) by (apply (IZR_le _ 250); lia).
    unfold Rdiv. fold x. nra. }
  assert (Hcap' : (249 <= iters)%Z -> 0.996 <= 1 - 1 / n).
  { intros Hle. assert (250 <= n) by (apply (IZR_le 250); lia).
    unfold Rdiv. fold x. nra. }
  split; [|split; [|split]].
  - split.
    + intros H0. destruct (Z.eq_dec iters 0%Z) as [|Hne]; [assumption|exfalso].
      assert (2 <= n) by (apply (IZR_le 2); lia).
      assert (0 < 1 - 1 / n) by (unfold Rdiv; fold x; nra).
      revert H0. unfold Rmin. destruct (Rle_dec _ _); lra.
    + intros ->. unfold n. change (IZR (0 + 1)) with 1. unfold Rdiv.
      rewrite Rinv_1. rewrite Rmin_left by lra. ring.
  - intros Hle. apply Rmin_left. apply Hcap, Hle.
  - intros Hle. apply Rmin_right. apply Hcap', Hle.
  - intros iters' Hle.
    destruct (ema_ratio_nonneg iters' ltac:(lia)) as (Hr' & Hn' & Hinv' & Hone').
    eexists. split; [exact Hr'|].
    apply Rle_min_compat_r.
    set (n' := IZR (iters' + 1)) in *. set (x' := / n') in *.
    assert (n <= n') by (apply IZR_le; lia).
    unfold Rdiv. fold x x'.
    assert (x' <= x); [|lra].
    apply Rinv_le_contravar; lra.
Qed.

Lemma Rpower_pos (x y : R) : 0 < Rpower x y.
Proof. unfold Rpower. apply exp_pos. Qed.

(** X15.  Inside the loops the learning rate is positive, at most the base
    rate, and strictly smaller at every later iteration (for a positive base
    rate). *)
Theorem learning_rate_strictly_decreases (base_lr : R)
    (iters1 iters2 total_iters : Z) :
  0 < base_lr -> (0 <= iters1 < iters2)%Z -> (iters2 < total_iters)%Z ->
  exists lr1 lr2,
    poly_lr base_lr iters1 total_iters = Ok lr1 /\
    poly_lr base_lr iters2 total_iters = Ok lr2 /\
    0 < lr2 /\ lr2 < lr1 /\ lr1 <= base_lr.
Proof.
  intros Hb H12 H2.
  rewrite !poly_lr_in_loop by lia. eexists _, _.
  split; [reflexivity|]. split; [reflexivity|].
  pose proof (fraction_of_total iters1 total_iters ltac:(lia)) as Hf1.
  pose proof (fraction_of_total iters2 total_iters ltac:(lia)) as Hf2.
  assert (Hlt : IZR iters1 / IZR total_iters < IZR iters2 / IZR total_iters).
  { apply Rmult_lt_compat_r; [|apply IZR_lt; lia].
    apply Rinv_0_lt_compat, (IZR_lt 0). lia. }
  set (a := 1 - IZR iters2 / IZR total_iters) in *.
  set (b := 1 - IZR iters1 / IZR total_iters) in *.
  assert (Hpa : 0 < Rpower a 0.9) by apply Rpower_pos.
  assert (Hab : Rpower a 0.9 < Rpower b 0.9).
  { apply Rlt_Rpower_l; [lra|]. unfold a, b. lra. }
  assert (Hb1 : Rpower b 0.9 <= 1).
  { rewrite <- (Rpower_one 0.9). apply Rle_Rpower_l; [lra|]. unfold b. lra. }
  split; [nra|]. split; [nra|nra].
Qed.

(** *** The masked loss and the mask ratio *)

Lemma count_true_nonneg (bs : list bool) : (0 <= count_true bs)%Z.
Proof.
  induction bs as [|b bs IH]; [reflexivity|].
  cbn [count_true fold_right]. fold (count_true bs). destruct b; lia.
Qed.

Lemma count_true_and (xs ys : list bool) :
  (count_true (zip_with andb xs ys) <= count_true ys)%Z.
Proof.
  revert ys. induction xs as [|x xs IH]; intros [|y ys];
    cbn [zip_with count_true fold_right];
    try fold (count_true (zip_with andb xs ys)); try fold (count_true ys).
  - reflexivity.
  - pose proof (count_true_nonneg ys). destruct y; lia.
  - reflexivity.
  - specialize (IH ys). destruct x, y; cbn [andb]; lia.
Qed.

(** X16.  When at least one voxel of the batch is not ignored, the mask
    ratio of line 199 is a number between 0 and 1. *)
Theorem mask_ratio_is_a_fraction (conf_u_w : tensor) (ignore_mask : list Z)
    (thresh : R) :
  non_ignored_count ignore_mask <> 0%Z ->
  exists r, mask_ratio conf_u_w ignore_mask thresh = Fin r /\ 0 <= r <= 1.
Proof.
  intros Hn. unfold mask_ratio.
  pose proof (count_true_and (confident conf_u_w thresh)
                (not_ignored ignore_mask)) as Hle.
  pose proof (count_true_nonneg
                (zip_with andb (confident conf_u_w thresh)
                   (not_ignored ignore_mask))) as H0.
  rewrite count_true_not_ignored in *.
  set (k := count_true _) in *. set (n := non_ignored_count ignore_mask) in *.
  assert (Hnp : 0 < IZR n) by (apply (IZR_lt 0); lia).
  rewrite fdiv_fin by lra. eexists. split; [reflexivity|].
  assert (0 <= IZR k) by (apply (IZR_le 0); exact H0).
  assert (IZR k <= IZR n) by (apply IZR_le; exact Hle).
  assert (Hinv : 0 < / IZR n) by (apply Rinv_0_lt_compat; exact Hnp).
  assert (Hone : IZR n * / IZR n = 1) by (apply Rinv_r; lra).
  unfold Rdiv. split; nra.
Qed.

Lemma non_ignored_count_cons (g : Z) (gs : list Z) :
  non_ignored_count (g :: gs) =
  ((if negb (g =? 255)%Z then 1 else 0) + non_ignored_count gs)%Z.
Proof.
  unfold non_ignored_count. cbn [List.filter].
  destruct (negb (g =? 255)%Z); cbn [length]; lia.
Qed.

Lemma non_ignored_count_nonneg (gs : list Z) : (0 <= non_ignored_count gs)%Z.
Proof. unfold non_ignored_count. lia. Qed.

Lemma qualifying_sum_bounds (loss conf : tensor) (ignore_mask : list Z)
    (thresh M : R) :
  0 <= M -> Forall (fun l => 0 <= l <= M) loss ->
  0 <= qualifying_sum loss conf ignore_mask thresh
    <= M * IZR (non_ignored_count ignore_mask).
Proof.
  intros HM Hall. revert conf ignore_mask.
  induction Hall as [|l ls Hl _ IH]; intros conf ignore_mask.
  - cbn [qualifying_sum].
    pose proof (IZR_le _ _ (non_ignored_count_nonneg ignore_mask)). nra.
  - destruct conf as [|c cs]; [|destruct ignore_mask as [|g gs]];
      cbn [qualifying_sum].
    + pose proof (IZR_le _ _ (non_ignored_count_nonneg ignore_mask)). nra.
    + change (non_ignored_count []) with 0%Z. lra.
    + rewrite non_ignored_count_cons, plus_IZR.
      specialize (IH cs gs).
      destruct (negb (g =? 255)%Z); rewrite ?andb_false_r;
        [destruct (Rleb thresh c); cbn [andb]|]; lra.
Qed.

(** X17.  When the per-voxel losses lie between 0 and a bound M and at least
    one voxel of the batch is not ignored, the masked unsupervised loss of
    lines 185-186 is a number between 0 and M. *)
Theorem masked_loss_within_voxel_bounds (loss_u_s conf_u_w : tensor)
    (ignore_mask : list Z) (thresh M : R) :
  0 <= M -> Forall (fun l => 0 <= l <= M) loss_u_s ->
  non_ignored_count ignore_mask <> 0%Z ->
  exists r,
    unsup_loss loss_u_s conf_u_w ignore_mask thresh = Fin r /\ 0 <= r <= M.
Proof.
  intros HM Hall Hn. rewrite unsup_loss_some_kept by exact Hn.
  eexists. split; [reflexivity|].
  pose proof (qualifying_sum_bounds loss_u_s conf_u_w ignore_mask thresh M
                HM Hall) as Hq.
  pose proof (non_ignored_count_nonneg ignore_mask) as H0.
  set (n := non_ignored_count ignore_mask) in *.
  set (q := qualifying_sum _ _ _ _) in *.
  assert (Hnp : 0 < IZR n) by (apply (IZR_lt 0); lia).
  assert (Hinv : 0 < / IZR n) by (apply Rinv_0_lt_compat; exact Hnp).
  assert (Hone : IZR n * / IZR n = 1) by (apply Rinv_r; lra).
  unfold Rdiv. split; [nra|].
  replace M with (M * IZR n * / IZR n) by (rewrite Rmult_assoc, Hone; ring).
  apply Rmult_le_compat_r; lra.
Qed.

(** *** The teacher update at the first iteration *)




(** *** Checkpoints and the end of an epoch *)

Lemma Rleb_true (x y : R) : x <= y -> Rleb x y = true.
Proof. intros H. unfold Rleb. destruct (Rle_dec x y); [reflexivity|lra]. Qed.

Lemma Rleb_false (x y : R) : y < x -> Rleb x y = false.
Proof. intros H. unfold Rleb. destruct (Rle_dec x y); [lra|reflexivity]. Qed.

Lemma Rleb_iff (x y : R) : Rleb x y = true <-> x <= y.
Proof.
  unfold Rleb. destruct (Rle_dec x y); split; try done.
Qed.

Lemma py_max_Rmax (a b : R) : py_max a b = Rmax a b.
Proof.
  unfold py_max, Rltb, Rmax.
  destruct (Rlt_dec a b), (Rle_dec a b); lra.
Qed.




(** C9, the code at the failing input.  Line 89 reads [args.teacher_ckpt],
    an attribute that no command line gives the namespace: [main] never
    returns from its start-up, whatever the checkpoint directory holds, so
    neither the restoring block of lines 133-146 nor the fresh start is
    reached; if the statements before line 89 succeed, the exception is the
    AttributeError of that read. *)
Theorem main_start_raises_before_resume (startup : result unit)
    (load_teacher : pyobj -> result module_state) (setup : result unit)
    (defaults : string -> pyobj) (given : gmap string pyobj)
    (fs : files) (latest : string) (student : module_state)
    (opt : optimizer_state) :
  (exists e,
     main_start startup load_teacher setup defaults given fs latest student
       opt = Raise e) /\
  (startup = Ok tt ->
   main_start startup load_teacher setup defaults given fs latest student
     opt = Raise (AttributeError "teacher_ckpt")) /\
  main_start (Ok tt) load_teacher setup defaults given
    (save_latest ∅ sample_latest sample_saved) sample_latest student opt
    = Raise (AttributeError "teacher_ckpt") /\
  main_start (Ok tt) load_teacher setup defaults given ∅ sample_latest
    student opt = Raise (AttributeError "teacher_ckpt").
Proof.
  assert (Hattr : read_attr (parse_args defaults given) "teacher_ckpt"
                  = Raise (AttributeError "teacher_ckpt")).
  { unfold read_attr, args_attr, parse_args.
    rewrite not_elem_of_list_to_map_1; [reflexivity|].
    rewrite <- list_fmap_compose.
    intros Hin%list_elem_of_fmap. destruct Hin as (d & Heq & Hd).
    cbn in Heq. subst d. unfold parser_dests in Hd.
    apply list_elem_of_In in Hd. cbn [In] in Hd.
    repeat (destruct Hd as [Hd|Hd]; [discriminate|]). exact Hd. }
  assert (Hok : forall fs0,
            main_start (Ok tt) load_teacher setup defaults given fs0 latest
              student opt = Raise (AttributeError "teacher_ckpt")).
  { intros fs0. unfold main_start. cbn [mbind result_bind].
    rewrite Hattr. reflexivity. }
  split; [|split; [|split]].
  - destruct startup as [[]|e]; [|exists e; reflexivity].
    eexists. apply Hok.
  - intros ->. apply Hok.
  - unfold main_start. cbn [mbind result_bind]. rewrite Hattr. reflexivity.
  - unfold main_start. cbn [mbind result_bind]. rewrite Hattr. reflexivity.
Qed.

(** X22.  After an evaluation each best value is the larger of the new mean
    Dice and the previous best, so it never decreases; the epoch of the best
    value becomes the current epoch exactly when the new value reaches the
    previous best, a tie included, and the checkpoint counts as best when
    the student or the teacher does so. *)
Theorem best_metric_bookkeeping (mDICE1 mDICE2 : R) (st : train_state) :
  let is_best := (update_best mDICE1 mDICE2 st).1 in
  let st' := (update_best mDICE1 mDICE2 st).2 in
  pre_best_dice1 st' = Rmax mDICE1 (pre_best_dice1 st) /\
  pre_best_dice2 st' = Rmax mDICE2 (pre_best_dice2 st) /\
  (is_best = true <->
   pre_best_dice1 st <= mDICE1 \/ pre_best_dice2 st <= mDICE2) /\
  (pre_best_dice1 st <= mDICE1 -> best_epoch_1 st' = epoch st) /\
  (mDICE1 < pre_best_dice1 st -> best_epoch_1 st' = best_epoch_1 st) /\
  (pre_best_dice2 st <= mDICE2 -> best_epoch_2 st' = epoch st) /\
  (mDICE2 < pre_best_dice2 st -> best_epoch_2 st' = best_epoch_2 st).
Proof.
  intros is_best st'. unfold is_best, st', update_best.
  cbn [fst snd pre_best_dice1 pre_best_dice2 best_epoch_1 best_epoch_2].
  rewrite !py_max_Rmax.
  split; [reflexivity|]. split; [reflexivity|].
  split; [rewrite orb_true_iff, !Rleb_iff; reflexivity|].
  repeat split; intros H.
  - rewrite Reqb_true; [reflexivity|]. rewrite Rmax_left; lra.
  - rewrite Reqb_false; [reflexivity|]. rewrite Rmax_right; lra.
  - rewrite Reqb_true; [reflexivity|]. rewrite Rmax_left; lra.
  - rewrite Reqb_false; [reflexivity|]. rewrite Rmax_right; lra.
Qed.

(** X23.  An evaluation is due at the end of epoch e, when iter_num has
    reached (e + 1) * len(trainloader_u), exactly if e is a multiple of 5
    and 10 * (e + 1) >= 7 * epochs: the number of batches of an epoch plays
    no part. *)
Theorem evaluation_schedule (len_u epochs e : Z) :
  (0 < len_u)%Z ->
  evaluation_due ((e + 1) * len_u) (len_u * epochs) e = true <->
  (7 * epochs <= 10 * (e + 1))%Z /\ (e mod 5 = 0)%Z.
Proof.
  intros Hlen. unfold evaluation_due.
  rewrite andb_true_iff, Rleb_iff, Z.eqb_eq, !mult_IZR, plus_IZR.
  assert (HL : 0 < IZR len_u) by (apply (IZR_lt 0); exact Hlen).
  split; intros [Hdue Hmod]; (split; [|exact Hmod]).
  - apply le_IZR. rewrite !mult_IZR, plus_IZR.
    apply (Rmult_le_reg_r (IZR len_u)); [exact HL|]. nra.
  - apply IZR_le in Hdue. rewrite !mult_IZR, plus_IZR in Hdue.
    assert (0.7 * IZR epochs <= IZR e + 1) by lra.
    nra.
Qed.

(** X24.  [main] reads the attribute teacher_ckpt of the parsed command line
    (line 89), and the parser declares no option of that name: whatever the
    command line and the defaults, the namespace has no such attribute, so
    the read fails.  Every other attribute that [main] reads is declared. *)
Theorem teacher_ckpt_is_no_option (defaults : string -> pyobj)
    (given : gmap string pyobj) :
  In "teacher_ckpt"%string main_attrs /\
  args_attr (parse_args defaults given) "teacher_ckpt" = None /\
  (forall name, args_attr (parse_args defaults given) name = None <->
                ~ In name parser_dests) /\
  (forall name, In name main_attrs -> name <> "teacher_ckpt"%string ->
     exists v, args_attr (parse_args defaults given) name = Some v).
Proof.
  assert (Hnone : forall name,
            args_attr (parse_args defaults given) name = None <->
            ~ In name parser_dests).
  { intros name. unfold args_attr, parse_args.
    set (entry := fun d => (d, match given !! d with
                               | Some v => v
                               | None => defaults d
                               end)).
    assert (Hfst : (entry <$> parser_dests).*1 = parser_dests)
      by reflexivity.
    split; intros H.
    - apply not_elem_of_list_to_map_2 in H. rewrite Hfst in H.
      rewrite <- list_elem_of_In. exact H.
    - apply not_elem_of_list_to_map_1. rewrite Hfst, list_elem_of_In.
      exact H. }
  split; [unfold main_attrs; cbn; tauto|].
  split.
  { apply Hnone. unfold parser_dests. cbn [In].
    intros H. repeat (destruct H as [H|H]; [discriminate|]). exact H. }
  split; [exact Hnone|].
  intros name Hin Hne.
  destruct (args_attr (parse_args defaults given) name) as [v|] eqn:Hattr;
    [exists v; reflexivity|exfalso].
  apply Hnone in Hattr. apply Hattr.
  unfold main_attrs in Hin. unfold parser_dests. cbn [In] in *.
  repeat (destruct Hin as [<-|Hin]; [tauto|]). contradiction.
Qed.

(** X25.  The log check of an iteration raises exactly for rank 0 with fewer
    than three batches per epoch, where it divides by zero; it never raises
    anything else, other ranks never log, and with three batches or more
    rank 0 logs the first batch of every epoch. *)
Theorem log_check_needs_three_batches (rank len_u i : Z) :
  (log_due rank len_u i = Raise ZeroDivisionError <->
   rank = 0%Z /\ (0 <= len_u < 3)%Z) /\
  (forall e, log_due rank len_u i = Raise e -> e = ZeroDivisionError) /\
  (rank <> 0%Z -> log_due rank len_u i = Ok false) /\
  ((3 <= len_u)%Z -> log_due 0 len_u 0 = Ok true).
Proof.
  unfold log_due.
  assert (Hdiv : (len_u / 3 = 0 <-> 0 <= len_u < 3)%Z).
  { split; intros H.
    - pose proof (Z.div_mod len_u 3 ltac:(lia)).
      pose proof (Z.mod_pos_bound len_u 3 ltac:(lia)). lia.
    - apply Z.div_small. exact H. }
  split; [|split; [|split]].
  - destruct (Z.eqb_spec rank 0) as [->|Hr].
    + destruct (Z.eqb_spec (len_u / 3) 0) as [Hz|Hz].
      * split; [intros _; split; [reflexivity|apply Hdiv, Hz]|reflexivity].
      * split; [discriminate|]. intros [_ H]. apply Hdiv in H. contradiction.
    + split; [discriminate|]. intros [H _]. contradiction.
  - intros e. destruct (rank =? 0)%Z; [|discriminate].
    destruct (len_u / 3 =? 0)%Z; [|discriminate]. intros [= <-]. reflexivity.
  - intros Hr. destruct (Z.eqb_spec rank 0); [contradiction|reflexivity].
  - intros Hlen. cbn [Z.eqb].
    destruct (Z.eqb_spec (len_u / 3) 0) as [Hz|Hz].
    + apply Hdiv in Hz. lia.
    + rewrite Z.mod_0_l by exact Hz. reflexivity.
Qed.

Section Epochs.

Context {val : evaluator}.

Lemma end_of_epoch_cases (cfg : config) (len_u : Z) (latest : string)
    (fs : files) (st : train_state) :
  let mDICE1 := mean_dice (model st) in
  let mDICE2 := mean_dice (model_ema st) in
  let up := update_best mDICE1 mDICE2 st in
  (evaluation_due (iter_num st) (len_u * cfg_epochs cfg) (epoch st) = true /\
   up.1 = true /\
   end_of_epoch cfg len_u latest fs st =
   (<[best_name (epoch st) mDICE1 mDICE2 := checkpoint_of up.2]>
      (save_latest fs latest up.2), up.2)) \/
  (evaluation_due (iter_num st) (len_u * cfg_epochs cfg) (epoch st) = true /\
   up.1 = false /\
   end_of_epoch cfg len_u latest fs st = (save_latest fs latest up.2, up.2)) \/
  (evaluation_due (iter_num st) (len_u * cfg_epochs cfg) (epoch st) = false /\
   end_of_epoch cfg len_u latest fs st = (save_latest fs latest st, st)).
Proof.
  intros mDICE1 mDICE2 up. unfold end_of_epoch.
  destruct (evaluation_due _ _ _); [|right; right; split; reflexivity].
  fold mDICE1 mDICE2 up.
  destruct up as [is_best st'] eqn:Hup. cbn [fst snd].
  destruct is_best.
  - left. split; [reflexivity|]. split; [reflexivity|].
    assert (epoch st' = epoch st) as ->; [|reflexivity].
    unfold up, update_best in Hup. injection Hup as _ <-. reflexivity.
  - right. left. repeat split; reflexivity.
Qed.


(** X27.  Of the checkpoint files, the end of an epoch saves the latest one
    and at most one more: if the entry of the checkpoint store under a path
    other than the latest one changes, that path is the best path of this
    epoch, the evaluation was due, the student or the teacher has reached
    its previous best, and the file holds the same checkpoint as the latest
    one. *)
Theorem saves_only_latest_and_best (cfg : config) (len_u : Z)
    (latest : string) (fs : files) (st : train_state) (path : string) :
  let fs' := (end_of_epoch cfg len_u latest fs st).1 in
  let st' := (end_of_epoch cfg len_u latest fs st).2 in
  path <> latest -> fs' !! path <> fs !! path ->
  evaluation_due (iter_num st) (len_u * cfg_epochs cfg) (epoch st) = true /\
  (pre_best_dice1 st <= mean_dice (model st) \/
   pre_best_dice2 st <= mean_dice (model_ema st)) /\
  path = best_name (epoch st) (mean_dice (model st))
           (mean_dice (model_ema st)) /\
  fs' !! path = Some (checkpoint_of st') /\
  fs' !! latest = Some (checkpoint_of st').
Proof.
  intros fs' st' Hpath. unfold fs', st'.
  destruct (end_of_epoch_cases cfg len_u latest fs st)
    as [(Hdue & Hbest & ->)|[(_ & _ & ->)|(_ & ->)]]; cbn [fst snd];
    unfold save_latest.
  - destruct (decide (best_name (epoch st) (mean_dice (model st))
                        (mean_dice (model_ema st)) = path)) as [Heq|Hne].
    + intros _. split; [exact Hdue|]. split.
      { unfold update_best in Hbest. cbn [fst] in Hbest.
        rewrite orb_true_iff, !Rleb_iff in Hbest. exact Hbest. }
      split; [symmetry; exact Heq|].
      rewrite Heq. split; [apply lookup_insert_eq|].
      rewrite lookup_insert_ne by exact Hpath. apply lookup_insert_eq.
    + rewrite lookup_insert_ne by exact Hne.
      rewrite lookup_insert_ne by congruence. contradiction.
  - rewrite lookup_insert_ne by congruence. contradiction.
  - rewrite lookup_insert_ne by congruence. contradiction.
Qed.

End Epochs.

(** X13 at the default options (weight 0.1, ramp-up length 200), from 0 to 1. *)
Lemma consistency_weight_monotone_witness :
  get_current_consistency_weight sample_args 0
    <= get_current_consistency_weight sample_args 1 /\
  get_current_consistency_weight sample_args 1 <= consistency sample_args.
Proof.
  apply (consistency_weight_monotone sample_args 0 1); cbn; lra || lia.
Defined.

(** X14 at iteration 249. *)
Lemma ema_ratio_grows_to_cap_witness :
  exists r,
    ema_ratio_at 249 = Ok r /\ 0 <= r <= 0.996 /\
    (r = 0 <-> 249%Z = 0%Z) /\
    ((249 <= 249)%Z -> r = 1 - 1 / IZR (249 + 1)) /\
    ((249 <= 249)%Z -> r = 0.996) /\
    forall iters', (249 <= iters')%Z ->
      exists r', ema_ratio_at iters' = Ok r' /\ r <= r'.
Proof.
  apply (ema_ratio_grows_to_cap 249). lia.
Defined.

(** X15 at base rate 0.001, iterations 1 and 2 of 6. *)
Lemma learning_rate_strictly_decreases_witness :
  exists lr1 lr2,
    poly_lr 0.001 1 6 = Ok lr1 /\ poly_lr 0.001 2 6 = Ok lr2 /\
    0 < lr2 /\ lr2 < lr1 /\ lr1 <= 0.001.
Proof.
  apply (learning_rate_strictly_decreases 0.001 1 2 6); lra || lia.
Defined.

(** X16 at a batch of two voxels, one of them ignored. *)
Lemma mask_ratio_is_a_fraction_witness :
  exists r, mask_ratio [1; 0.5] [0%Z; 255%Z] 0.95 = Fin r /\ 0 <= r <= 1.
Proof.
  apply (mask_ratio_is_a_fraction [1; 0.5] [0%Z; 255%Z] 0.95).
  vm_compute. discriminate.
Defined.

(** X17 at the same batch, with per-voxel losses 0.25 and 1. *)
Lemma masked_loss_within_voxel_bounds_witness :
  exists r,
    unsup_loss [0.25; 1] [1; 0.5] [0%Z; 255%Z] 0.95 = Fin r /\ 0 <= r <= 1.
Proof.
  apply (masked_loss_within_voxel_bounds [0.25; 1] [1; 0.5] [0%Z; 255%Z]
           0.95 1).
  - lra.
  - repeat constructor; lra.
  - vm_compute. discriminate.
Defined.



(** X23 at epoch 95 of 100, with 3 batches per epoch. *)
Lemma evaluation_schedule_witness :
  evaluation_due ((95 + 1) * 3) (3 * 100) 95 = true <->
  (7 * 100 <= 10 * (95 + 1))%Z /\ (95 mod 5 = 0)%Z.
Proof.
  apply (evaluation_schedule 3 100 95). lia.
Defined.

(** X27 at the end of the only epoch of a run of one epoch, where the
    student's mean Dice 2 beats the previous best 0.78. *)
Lemma saves_only_latest_and_best_witness :
  evaluation_due (iter_num sample_state_end) (3 * cfg_epochs sample_cfg_one)
    (epoch sample_state_end) = true /\
  (pre_best_dice1 sample_state_end <= sample_mean_dice (model sample_state_end)
   \/
   pre_best_dice2 sample_state_end
     <= sample_mean_dice (model_ema sample_state_end)) /\
  "checkpoints/best.pth"%string =
    best_name (evaluator := sample_evaluator) (epoch sample_state_end)
      (sample_mean_dice (model sample_state_end))
      (sample_mean_dice (model_ema sample_state_end)) /\
  (end_of_epoch (val := sample_evaluator) sample_cfg_one 3 sample_latest ∅
     sample_state_end).1 !! "checkpoints/best.pth"
  = Some (checkpoint_of
            (end_of_epoch (val := sample_evaluator) sample_cfg_one 3
               sample_latest ∅ sample_state_end).2) /\
  (end_of_epoch (val := sample_evaluator) sample_cfg_one 3 sample_latest ∅
     sample_state_end).1 !! sample_latest
  = Some (checkpoint_of
            (end_of_epoch (val := sample_evaluator) sample_cfg_one 3
               sample_latest ∅ sample_state_end).2).
Proof.
  apply (saves_only_latest_and_best (val := sample_evaluator)
           sample_cfg_one 3 sample_latest ∅ sample_state_end
           "checkpoints/best.pth").
  - discriminate.
  - rewrite lookup_empty.
    assert (Hdue : evaluation_due (iter_num sample_state_end)
                     (3 * cfg_epochs sample_cfg_one) (epoch sample_state_end)
                   = true).
    { unfold evaluation_due. apply andb_true_iff. split; [|reflexivity].
      apply Rleb_true.
      change (IZR (3 * cfg_epochs sample_cfg_one)) with 3.
      change (IZR (iter_num sample_state_end)) with 3. lra. }
    assert (Hbest : (update_best (sample_mean_dice (model sample_state_end))
                       (sample_mean_dice (model_ema sample_state_end))
                       sample_state_end).1 = true).
    { unfold update_best. cbn [fst]. apply orb_true_iff. left.
      apply Rleb_true.
      change (pre_best_dice1 sample_state_end) with 0.78.
      change (sample_mean_dice (model sample_state_end)) with 2. lra. }
    destruct (end_of_epoch_cases (val := sample_evaluator) sample_cfg_one 3
                sample_latest ∅ sample_state_end)
      as [(_ & _ & ->)|[(_ & Hno & _)|(Hno & _)]].
    + cbn [fst]. rewrite lookup_insert_eq. discriminate.
    + cbn [mean_dice sample_evaluator] in Hno. congruence.
    + congruence.
Defined.

End TrainFacts.
